(** * fairseq/tasks/cross_lingual_lm.py : the cross-lingual LM task

    A shallow embedding of [CrossLingualLMTask] and the properties of its
    language-to-id mapping and of [load_dataset].

    Conventions of the embedding.
    - A Python [str] is a [string]; each [ascii] stands for one code point
      in U+0000..U+00FF.
    - A Python [dict] / [OrderedDict] whose iteration order is observed is
      an association list in insertion order ([PyDict]); the per-split
      registry [self.datasets], only ever indexed, is a [gmap].
    - Python [int]s are [Z]; the indices produced by [enumerate] are [nat].
    - [load_dataset] mutates [self], may raise and probes the file system:
      it is written in a small monad with state, exceptions and a trace of
      the observable events. *)

From Stdlib Require Import ZArith Ascii String List.
From stdpp Require Import base option list strings gmap.

Local Open Scope string_scope.
Local Open Scope list_scope.

(** ** Python strings *)

Module PyStr.

(** [str.isspace] on the code points below 256: TAB..CR, FS..US, SPACE,
    NEL and NBSP. *)
Definition isspace (c : ascii) : bool :=
  let n := N_of_ascii c in
  ((9 <=? n) && (n <=? 13) || (28 <=? n) && (n <=? 32)
   || (n =? 133) || (n =? 160))%N.

Fixpoint lstrip (s : string) : string :=
  match s with
  | EmptyString => EmptyString
  | String c s' => if isspace c then lstrip s' else s
  end.

Fixpoint rstrip (s : string) : string :=
  match s with
  | EmptyString => EmptyString
  | String c s' =>
      match rstrip s' with
      | EmptyString => if isspace c then EmptyString else String c EmptyString
      | r => String c r
      end
  end.

(** [s.strip()] *)
Definition strip (s : string) : string := rstrip (lstrip s).

(** [s.split(sep)] for a one-character separator: never the empty list,
    and the empty string gives one empty field. *)
Fixpoint split (sep : ascii) (s : string) : list string :=
  match s with
  | EmptyString => [EmptyString]
  | String c s' =>
      if decide (c = sep) then EmptyString :: split sep s'
      else match split sep s' with
           | w :: ws => String c w :: ws
           | [] => [String c EmptyString]
           end
  end.

Definition startswith (s : string) (c : ascii) : bool :=
  match s with
  | String c' _ => bool_decide (c' = c)
  | EmptyString => false
  end.

Fixpoint endswith (s : string) (c : ascii) : bool :=
  match s with
  | EmptyString => false
  | String c' EmptyString => bool_decide (c' = c)
  | String _ s' => endswith s' c
  end.

(** [enumerate(l)] *)
Fixpoint enumerate_from {A} (i : nat) (l : list A) : list (nat * A) :=
  match l with
  | [] => []
  | x :: l' => (i, x) :: enumerate_from (S i) l'
  end.

Definition enumerate {A} (l : list A) : list (nat * A) := enumerate_from 0 l.

End PyStr.

(** [os.path.join(a, b)] of [posixpath]. *)
Definition os_path_join (a b : string) : string :=
  if PyStr.startswith b "/" then b
  else if bool_decide (a = "") || PyStr.endswith a "/" then a +:+ b
  else a +:+ "/" +:+ b.

(** ** Insertion-ordered dictionaries with string keys *)

Module PyDict.
Section Dict.
Context {V : Type}.

Definition t := list (string * V).

Definition empty : t := [].

(** [d[k] = v]: an existing key keeps its position, a new one goes last. *)
Fixpoint set (d : t) (k : string) (v : V) : t :=
  match d with
  | [] => [(k, v)]
  | (k', v') :: d' =>
      if decide (k = k') then (k', v) :: d'
      else (k', v') :: set d' k v
  end.

(** [d.get(k)]; [None] is the [KeyError] of [d[k]]. *)
Fixpoint get (d : t) (k : string) : option V :=
  match d with
  | [] => None
  | (k', v') :: d' => if decide (k = k') then Some v' else get d' k
  end.

(** [d.keys()], in iteration order. *)
Definition keys (d : t) : list string := map fst d.
End Dict.
Arguments t : clear implicits.
End PyDict.

(** ** The language-to-id mapping *)

(** [[l.strip() for l in languages.split(',')]] *)
Definition split_langs (languages : string) : list string :=
  map PyStr.strip (PyStr.split "," languages).

(** [CrossLingualLMTask._lang_to_id] *)
Definition _lang_to_id (languages : string) : PyDict.t nat :=
  let lang2id := PyDict.empty in
  let langs := split_langs languages in
  fold_left (fun lang2id '(id, lang) => PyDict.set lang2id lang id)
            (PyStr.enumerate langs) lang2id.

(** The loop of [_lang_to_id] entered with the dictionary [lang2id] and
    the counter of [enumerate] at [i]; [_lang_to_id] enters it with [{}]
    and [0]. *)
Definition lang_to_id_loop (lang2id : PyDict.t nat) (i : nat)
    (langs : list string) : PyDict.t nat :=
  fold_left (fun lang2id '(id, lang) => PyDict.set lang2id lang id)
            (PyStr.enumerate_from i langs) lang2id.

(** ** Comma-separated language strings

    A language string read without [split] and [strip]: a non-empty
    sequence of entries separated by commas, each entry a language code
    with white space before and after it. The code itself contains no
    comma and neither begins nor ends with white space; it may be empty. *)

Module LangEntry.
Record t := mk { before : string; code : string; after : string }.

Fixpoint all_space (s : string) : bool :=
  match s with
  | EmptyString => true
  | String c s' => PyStr.isspace c && all_space s'
  end.

Fixpoint no_comma (s : string) : bool :=
  match s with
  | EmptyString => true
  | String c s' => bool_decide (c ≠ ","%char) && no_comma s'
  end.

Definition first_char (s : string) : option ascii :=
  match s with
  | EmptyString => None
  | String c _ => Some c
  end.

Fixpoint last_char (s : string) : option ascii :=
  match s with
  | EmptyString => None
  | String c EmptyString => Some c
  | String _ s' => last_char s'
  end.

Definition trimmed (s : string) : bool :=
  match first_char s, last_char s with
  | Some a, Some b => negb (PyStr.isspace a) && negb (PyStr.isspace b)
  | _, _ => true
  end.

(** The entry as it stands in the string. *)
Definition text (e : t) : string := before e +:+ (code e +:+ after e).

Definition ok (e : t) : bool :=
  all_space (before e) && all_space (after e)
  && trimmed (code e) && no_comma (code e).
End LangEntry.

(** The language string made of the given entries. *)
Definition join_entries (entries : list LangEntry.t) : string :=
  String.concat "," (map LangEntry.text entries).

(** ** The collaborators

    The dictionary and dataset classes live in [fairseq.data]; this file
    only calls their constructors and reads a few attributes. A
    constructed object is the record of the arguments it was built with. *)

Module MaskedLMDictionary.
(** The three reserved indices read through [pad()], [eos()], [mask()]. *)
Record t := mk { pad : Z; eos : Z; mask : Z }.
End MaskedLMDictionary.

(** The object bound to [ds] in [load_dataset]. *)
Inductive IndexedShard :=
| IndexedRawTextDataset (path : string) (dictionary : MaskedLMDictionary.t)
| IndexedDataset (path : string) (fix_lua_indexing : bool)
| IndexedCachedDataset (path : string) (fix_lua_indexing : bool).

(** [x.sizes], the attribute of a collaborator object [x]. *)
Inductive SizesOf (A : Type) := sizes_of (x : A).
Arguments sizes_of {A} x.

Module TokenBlockDataset.
Record t := mk {
  dataset : IndexedShard;
  sizes : SizesOf IndexedShard;
  block_size : Z;
  pad : Z;
  eos : Z
}.
End TokenBlockDataset.

Module MaskedLMDataset.
Record t := mk {
  dataset : TokenBlockDataset.t;
  sizes : SizesOf TokenBlockDataset.t;
  vocab : MaskedLMDictionary.t;
  pad_idx : Z;
  mask_idx : Z;
  classif_token_idx : Z;
  sep_token_idx : Z;
  shuffle : bool;
  has_pairs : bool;
  segment_id : nat;
  seed : Z
}.
End MaskedLMDataset.

Module MultiCorpusSampledDataset.
Record t := mk {
  datasets : PyDict.t MaskedLMDataset.t;
  default_key : option string
}.
End MultiCorpusSampledDataset.

(** The two static [exists(path)] tests of the data collaborators, as the
    observations [load_dataset] makes of the file system. *)
Record FileSystem := {
  raw_text_exists : string -> bool;   (* IndexedRawTextDataset.exists *)
  indexed_exists : string -> bool     (* IndexedDataset.exists *)
}.

(** ** The task object *)

Module Args.
(** The parsed command line. Every option is read as a plain attribute
    except [shuffle], read with [getattr(args, 'shuffle', False)]:
    [None] is a namespace without that attribute. *)
Record t := mk {
  data : string;
  tokens_per_sample : Z;
  monolingual_langs : string;
  raw_text : bool;
  lazy_load : bool;
  shuffle : option bool;
  seed : Z;
  distributed_world_size : Z
}.

Definition with_shuffle (a : t) (s : option bool) : t :=
  mk (data a) (tokens_per_sample a) (monolingual_langs a) (raw_text a)
     (lazy_load a) s (seed a) (distributed_world_size a).
End Args.

(** [getattr(args, 'shuffle', default)] *)
Definition getattr_shuffle (a : Args.t) (default : bool) : bool :=
  match Args.shuffle a with
  | Some b => b
  | None => default
  end.

Module Task.
(** The attributes of a [CrossLingualLMTask]: [args] and [datasets]
    come from the base class, the others from [__init__]. *)
Record t := mk {
  args : Args.t;
  datasets : gmap string MultiCorpusSampledDataset.t;
  dictionary : MaskedLMDictionary.t;
  seed : Z;
  distributed_world_size : Z;
  langs2id : PyDict.t nat;
  default_key : option string
}.

Definition set_default_key (self : t) (k : option string) : t :=
  mk (args self) (datasets self) (dictionary self) (seed self)
     (distributed_world_size self) (langs2id self) k.

Definition set_datasets (self : t)
    (d : gmap string MultiCorpusSampledDataset.t) : t :=
  mk (args self) d (dictionary self) (seed self)
     (distributed_world_size self) (langs2id self) (default_key self).

Definition set_args (self : t) (a : Args.t) : t :=
  mk a (datasets self) (dictionary self) (seed self)
     (distributed_world_size self) (langs2id self) (default_key self).
End Task.

(** Modelled from the spec: the base class [FairseqTask] is not part of
    this file; its constructor stores the configuration and starts with an
    empty per-split registry ("per-split dataset collections are created on
    demand and cached in a ... mutable registry keyed by split name"). *)
Definition FairseqTask__init__ (args : Args.t)
  : Args.t * gmap string MultiCorpusSampledDataset.t := (args, ∅).

(** [CrossLingualLMTask.__init__] *)
Definition __init__ (args : Args.t) (dictionary : MaskedLMDictionary.t)
  : Task.t :=
  let '(self_args, self_datasets) := FairseqTask__init__ args in
  Task.mk self_args self_datasets dictionary (Args.seed args)
          (Args.distributed_world_size args)
          (_lang_to_id (Args.monolingual_langs args)) None.

(** [CrossLingualLMTask.target_dictionary] *)
Definition target_dictionary (self : Task.t) : MaskedLMDictionary.t :=
  Task.dictionary self.

(** ** Effects of [load_dataset] *)

Inductive Exn :=
| FileNotFoundError (msg : string)
| KeyError (key : string).

(** What a run lets the outside see: the existence tests, in order, and
    the log line ['| {} {} {} examples'] with the dataset whose [len] it
    prints. *)
Inductive Event :=
| ProbeRawText (path : string)
| ProbeIndexed (path : string)
| PrintExamples (data split : string) (merged : MultiCorpusSampledDataset.t).

(** A computation on [self]: the value or the exception raised, the task
    object as the computation left it (also when it raised), the events. *)
Definition M (A : Type) : Type := Task.t -> (Exn + A) * Task.t * list Event.

Definition ret {A} (a : A) : M A := fun self => (inr a, self, []).

Definition bind {A B} (m : M A) (f : A -> M B) : M B := fun self =>
  match m self with
  | (inl e, self', tr) => (inl e, self', tr)
  | (inr a, self', tr) =>
      let '(r, self'', tr') := f a self' in (r, self'', tr ++ tr')
  end.

Declare Scope task_scope.
Delimit Scope task_scope with task.
Bind Scope task_scope with M.
Notation "x ← y ; z" := (bind y (fun x => z))
  (at level 20, y at level 100, z at level 200, only parsing) : task_scope.
Notation "x ;; z" := (bind x (fun _ => z))
  (at level 100, z at level 200, only parsing, right associativity)
  : task_scope.
Local Open Scope task_scope.

Definition raise {A} (e : Exn) : M A := fun self => (inl e, self, []).
Definition get_self : M Task.t := fun self => (inr self, self, []).
Definition put_self (self' : Task.t) : M unit := fun _ => (inr tt, self', []).
Definition emit (ev : Event) : M unit := fun self => (inr tt, self, [ev]).

Definition outcome {A} (r : (Exn + A) * Task.t * list Event) : Exn + A :=
  r.1.1.
Definition final {A} (r : (Exn + A) * Task.t * list Event) : Task.t :=
  r.1.2.
Definition trace {A} (r : (Exn + A) * Task.t * list Event) : list Event :=
  r.2.

(** [d[k]] on an ordered dictionary. *)
Definition getitem {V} (d : PyDict.t V) (k : string) : M V :=
  match PyDict.get d k with
  | Some v => ret v
  | None => raise (KeyError k)
  end.

(** [self.datasets[split]] *)
Definition datasets_getitem (split : string)
  : M MultiCorpusSampledDataset.t :=
  self ← get_self;
  match Task.datasets self !! split with
  | Some d => ret d
  | None => raise (KeyError split)
  end.

Section Load.
Variable fs : FileSystem.

Definition IndexedRawTextDataset_exists (path : string) : M bool :=
  emit (ProbeRawText path);; ret (raw_text_exists fs path).

Definition IndexedDataset_exists (path : string) : M bool :=
  emit (ProbeIndexed path);; ret (indexed_exists fs path).

(** Lines 119-128: the [if]/[elif]/[else] that binds [ds]. [and] only
    evaluates its right operand when the left one holds. *)
Definition resolve_shard (language_split path : string) : M IndexedShard :=
  self ← get_self;
  c ← (if Args.raw_text (Task.args self)
       then IndexedRawTextDataset_exists path else ret false);
  if c then ret (IndexedRawTextDataset path (Task.dictionary self))
  else
    c' ← (if negb (Args.raw_text (Task.args self))
          then IndexedDataset_exists path else ret false);
    if c' then
      if Args.lazy_load (Task.args self)
      then ret (IndexedDataset path true)
      else ret (IndexedCachedDataset path true)
    else
      raise (FileNotFoundError
               ("Dataset not found: " +:+ language_split +:+ " (" +:+
                Args.data (Task.args self) +:+ ")")).

(** Lines 113-153: the body of the loop, for one [lang]. *)
Definition load_lang (split : string)
    (dataset_map : PyDict.t MaskedLMDataset.t) (lang : string)
  : M (PyDict.t MaskedLMDataset.t) :=
  self ← get_self;
  (if Task.default_key self is None
   then put_self (Task.set_default_key self (Some lang))
   else ret tt);;
  self ← get_self;
  let language_split := split +:+ "." +:+ lang in
  let path := os_path_join (Args.data (Task.args self)) language_split in
  ds ← resolve_shard language_split path;
  let dictionary := Task.dictionary self in
  let block_dataset :=
    TokenBlockDataset.mk ds (sizes_of ds)
      (Args.tokens_per_sample (Task.args self) - 1)
      (MaskedLMDictionary.pad dictionary)
      (MaskedLMDictionary.eos dictionary) in
  segment_id ← getitem (Task.langs2id self) lang;
  ret (PyDict.set dataset_map lang
          (MaskedLMDataset.mk block_dataset (sizes_of block_dataset)
             dictionary
             (MaskedLMDictionary.pad dictionary)
             (MaskedLMDictionary.mask dictionary)
             (MaskedLMDictionary.eos dictionary)
             (MaskedLMDictionary.eos dictionary)
             (getattr_shuffle (Task.args self) false)
             false
             segment_id
             (Task.seed self))).

(** [for lang in keys: ...], threading the local [dataset_map]. *)
Fixpoint for_langs (split : string) (keys : list string)
    (dataset_map : PyDict.t MaskedLMDataset.t)
  : M (PyDict.t MaskedLMDataset.t) :=
  match keys with
  | [] => ret dataset_map
  | lang :: keys' =>
      dataset_map' ← load_lang split dataset_map lang;
      for_langs split keys' dataset_map'
  end.

(** [CrossLingualLMTask.load_dataset] *)
Definition load_dataset (split : string) (combine : bool) : M unit :=
  let dataset_map := PyDict.empty in
  self ← get_self;
  dataset_map ← for_langs split (PyDict.keys (Task.langs2id self))
                  dataset_map;
  self ← get_self;
  put_self (Task.set_datasets self
              (<[split :=
                   MultiCorpusSampledDataset.mk dataset_map
                     (Task.default_key self)]> (Task.datasets self)));;
  self ← get_self;
  merged ← datasets_getitem split;
  emit (PrintExamples (Args.data (Task.args self)) split merged).

End Load.

(** A caller that keeps the task object across a series of loads, each
    against the file system of its moment, whether or not a load raised. *)
Definition Request : Type := FileSystem * string * bool.

Definition run_loads (self : Task.t) (reqs : list Request) : Task.t :=
  fold_left (fun self '(fs, split, combine) =>
               final (load_dataset fs split combine self))
            reqs self.

(** ** Closed forms

    What one run of the loop computes, as pure functions of the
    configuration; the lemmas [*_run] below prove that the monadic code
    above computes exactly these. *)

(** ['{}.{}'.format(split, lang)] *)
Definition language_split (split lang : string) : string :=
  split +:+ "." +:+ lang.

(** [os.path.join(self.args.data, language_split)] *)
Definition shard_path (data split lang : string) : string :=
  os_path_join data (language_split split lang).

(** ['Dataset not found: {} ({})'.format(language_split, self.args.data)] *)
Definition not_found_message (language_split data : string) : string :=
  "Dataset not found: " +:+ language_split +:+ " (" +:+ data +:+ ")".

(** The one existence test the configuration selects. *)
Definition applicable_exists (fs : FileSystem) (a : Args.t) (path : string)
  : bool :=
  if Args.raw_text a then raw_text_exists fs path else indexed_exists fs path.

Definition probe_event (a : Args.t) (path : string) : Event :=
  if Args.raw_text a then ProbeRawText path else ProbeIndexed path.

(** The shard object built when the applicable test succeeds. *)
Definition shard_for (a : Args.t) (dictionary : MaskedLMDictionary.t)
    (path : string) : IndexedShard :=
  if Args.raw_text a then IndexedRawTextDataset path dictionary
  else if Args.lazy_load a then IndexedDataset path true
  else IndexedCachedDataset path true.

Definition block_dataset_for (a : Args.t) (dictionary : MaskedLMDictionary.t)
    (path : string) : TokenBlockDataset.t :=
  let ds := shard_for a dictionary path in
  TokenBlockDataset.mk ds (sizes_of ds) (Args.tokens_per_sample a - 1)
    (MaskedLMDictionary.pad dictionary) (MaskedLMDictionary.eos dictionary).

Definition lang_dataset (self : Task.t) (split lang : string) (id : nat)
  : MaskedLMDataset.t :=
  let dictionary := Task.dictionary self in
  let block_dataset :=
    block_dataset_for (Task.args self) dictionary
      (shard_path (Args.data (Task.args self)) split lang) in
  MaskedLMDataset.mk block_dataset (sizes_of block_dataset) dictionary
    (MaskedLMDictionary.pad dictionary) (MaskedLMDictionary.mask dictionary)
    (MaskedLMDictionary.eos dictionary) (MaskedLMDictionary.eos dictionary)
    (getattr_shuffle (Task.args self) false) false id (Task.seed self).

(** Lines 113-114. *)
Definition claim_default_key (self : Task.t) (lang : string) : Task.t :=
  if Task.default_key self is None
  then Task.set_default_key self (Some lang) else self.

Definition after_first_key (self : Task.t) (keys : list string) : Task.t :=
  match keys with
  | [] => self
  | lang :: _ => claim_default_key self lang
  end.

Definition shard_missing (fs : FileSystem) (self : Task.t) (split lang : string)
  : bool :=
  negb (applicable_exists fs (Task.args self)
          (shard_path (Args.data (Task.args self)) split lang)).

(** The first language, in iteration order, whose shard is missing. *)
Definition first_missing (fs : FileSystem) (self : Task.t) (split : string)
    (keys : list string) : option string :=
  find (shard_missing fs self split) keys.

(** The languages whose shard is looked for: all of them up to and
    including the first missing one. *)
Fixpoint probed (fs : FileSystem) (self : Task.t) (split : string)
    (keys : list string) : list string :=
  match keys with
  | [] => []
  | lang :: keys' =>
      lang :: (if shard_missing fs self split lang then []
               else probed fs self split keys')
  end.

Definition probes (fs : FileSystem) (self : Task.t) (split : string)
    (keys : list string) : list Event :=
  map (fun lang =>
         probe_event (Task.args self)
           (shard_path (Args.data (Task.args self)) split lang))
      (probed fs self split keys).

Definition segment_id_of (self : Task.t) (lang : string) : nat :=
  default 0 (PyDict.get (Task.langs2id self) lang).

Definition dataset_map_for (self : Task.t) (split : string)
    (keys : list string) (dataset_map : PyDict.t MaskedLMDataset.t)
  : PyDict.t MaskedLMDataset.t :=
  fold_left (fun dataset_map lang =>
               PyDict.set dataset_map lang
                 (lang_dataset self split lang (segment_id_of self lang)))
            keys dataset_map.

(** ** The shard resolution as the specification words it

    "if raw-text mode is configured and a raw-text shard exists at that
    path, load it as raw text; else if a binary-indexed shard exists, load
    it either lazily or fully cached into memory depending on a lazy-load
    flag; otherwise fail with a DatasetNotFoundError". *)
Definition resolve_shard_as_specified (fs : FileSystem) (a : Args.t)
    (dictionary : MaskedLMDictionary.t) (language_split path : string)
  : Exn + IndexedShard :=
  if Args.raw_text a && raw_text_exists fs path
  then inr (IndexedRawTextDataset path dictionary)
  else if indexed_exists fs path
  then inr (if Args.lazy_load a then IndexedDataset path true
            else IndexedCachedDataset path true)
  else inl (FileNotFoundError (not_found_message language_split (Args.data a))).

(** The registry a load leaves, from the registry [d] it found: the merged
    dataset is stored under [split] when no shard is missing, and nothing
    is stored otherwise. *)
Definition registry_after (fs : FileSystem) (self : Task.t) (split : string)
    (d : gmap string MultiCorpusSampledDataset.t)
  : gmap string MultiCorpusSampledDataset.t :=
  let keys := PyDict.keys (Task.langs2id self) in
  match first_missing fs self split keys with
  | Some _ => d
  | None =>
      <[split :=
          MultiCorpusSampledDataset.mk
            (dataset_map_for self split keys PyDict.empty)
            (Task.default_key (after_first_key self keys))]> d
  end.

(** The registry a series of loads leaves. *)
Definition registry_after_all (self : Task.t) (reqs : list Request)
    (d : gmap string MultiCorpusSampledDataset.t)
  : gmap string MultiCorpusSampledDataset.t :=
  fold_left (fun d '(fs, split, combine) => registry_after fs self split d)
            reqs d.

(** ** Setting the task up *)

(** The line ['| dictionary: {} types'] that [setup_task] prints. *)
Inductive SetupEvent :=
| PrintDictionary (types : nat).

Section Setup.
(** [MaskedLMDictionary.load] and [len] of a dictionary belong to the
    dictionary collaborator: the loader returns the dictionary read from a
    file or the error it raised, of whatever class [E]. *)
Variable E : Type.
Variable MaskedLMDictionary_load : string -> E + MaskedLMDictionary.t.
Variable dictionary_len : MaskedLMDictionary.t -> nat.

(** [CrossLingualLMTask.load_dictionary] *)
Definition load_dictionary (filename : string) : E + MaskedLMDictionary.t :=
  MaskedLMDictionary_load filename.

(** [CrossLingualLMTask.setup_task] *)
Definition setup_task (args : Args.t) : (E + Task.t) * list SetupEvent :=
  match MaskedLMDictionary_load (os_path_join (Args.data args) "dict.txt") with
  | inl e => (inl e, [])
  | inr dictionary =>
      (inr (__init__ args dictionary),
       [PrintDictionary (dictionary_len dictionary)])
  end.
End Setup.

(** ** Sample inputs *)

Definition sample_dictionary : MaskedLMDictionary.t :=
  MaskedLMDictionary.mk 1 2 4.

(** [data --tokens-per-sample 128 --monolingual-langs 'en, fr'] *)
Definition sample_args : Args.t :=
  Args.mk "data" 128 "en, fr" false false (Some false) 1 1.

(** The same with [--raw-text]. *)
Definition sample_args_raw : Args.t :=
  Args.mk "data" 128 "en, fr" true false (Some false) 1 1.

(** A directory with binary shards for [train] in both languages and for
    [valid] in English only, and no raw-text shard. *)
Definition sample_fs : FileSystem := {|
  raw_text_exists := fun _ => false;
  indexed_exists := fun path =>
    bool_decide (path ∈ ["data/train.en"; "data/train.fr"; "data/valid.en"])
|}.

(** The same directory once [train.fr] has been removed. *)
Definition sample_fs_later : FileSystem := {|
  raw_text_exists := fun _ => false;
  indexed_exists := fun path =>
    bool_decide (path ∈ ["data/train.en"; "data/valid.en"])
|}.

(** * Properties *)

Example lang_to_id_en_fr_de :
  _lang_to_id "en, fr,de" = [("en", 0); ("fr", 1); ("de", 2)].
Proof. reflexivity. Qed.

Example lang_to_id_dup :
  _lang_to_id "fr,en , fr" = [("fr", 2); ("en", 1)].
Proof. reflexivity. Qed.

Example lang_to_id_empty : _lang_to_id "" = [("", 0)].
Proof. reflexivity. Qed.

(** ** Ordered dictionaries *)

Section PyDictFacts.
Context {V : Type}.
Implicit Types (d : PyDict.t V) (k : string) (v : V).

Lemma get_set d k v k' :
  PyDict.get (PyDict.set d k v) k' =
  if decide (k' = k) then Some v else PyDict.get d k'.
Proof.
  induction d as [|[k0 v0] d IH]; simpl.
  - destruct (decide (k' = k)); reflexivity.
  - destruct (decide (k = k0)) as [->|Hne]; simpl.
    + destruct (decide (k' = k0)); reflexivity.
    + destruct (decide (k' = k0)) as [->|]; [|exact IH].
      destruct (decide (k0 = k)); congruence.
Qed.

Lemma get_is_Some d k : is_Some (PyDict.get d k) <-> k ∈ PyDict.keys d.
Proof.
  unfold PyDict.keys.
  induction d as [|[k0 v0] d IH]; simpl.
  - split; [intros [? ?]; discriminate | intros H; inversion H].
  - rewrite elem_of_cons. destruct (decide (k = k0)) as [->|Hne].
    + split; eauto.
    + rewrite IH. split; [tauto | intros [?|?]; [contradiction | assumption]].
Qed.

Lemma get_None d k : PyDict.get d k = None <-> k ∉ PyDict.keys d.
Proof.
  rewrite <- get_is_Some, <- eq_None_not_Some. reflexivity.
Qed.

Lemma set_fresh d k v : k ∉ PyDict.keys d -> PyDict.set d k v = d ++ [(k, v)].
Proof.
  unfold PyDict.keys.
  induction d as [|[k0 v0] d IH]; simpl; intros Hk; [reflexivity|].
  apply not_elem_of_cons in Hk as [Hne Hk].
  destruct (decide (k = k0)); [contradiction|]. by rewrite IH.
Qed.

Lemma keys_set_old d k v :
  k ∈ PyDict.keys d -> PyDict.keys (PyDict.set d k v) = PyDict.keys d.
Proof.
  unfold PyDict.keys.
  induction d as [|[k0 v0] d IH]; simpl; intros Hk; [inversion Hk|].
  destruct (decide (k = k0)) as [->|Hne]; simpl; [reflexivity|].
  apply elem_of_cons in Hk as [?|Hk]; [contradiction|]. by rewrite IH.
Qed.

Lemma keys_set d k v :
  PyDict.keys (PyDict.set d k v) =
  if decide (k ∈ PyDict.keys d) then PyDict.keys d else PyDict.keys d ++ [k].
Proof.
  destruct (decide (k ∈ PyDict.keys d)) as [Hin|Hout].
  - by apply keys_set_old.
  - rewrite set_fresh by assumption. unfold PyDict.keys.
    by rewrite map_app.
Qed.

Lemma elem_of_keys_set d k v k' :
  k' ∈ PyDict.keys (PyDict.set d k v) <-> k' = k \/ k' ∈ PyDict.keys d.
Proof.
  rewrite <- !get_is_Some, get_set.
  destruct (decide (k' = k)) as [->|Hne].
  - split; [by left | by eauto].
  - split; [by right | intros [?|?]; [contradiction | assumption]].
Qed.

Lemma NoDup_keys_set d k v :
  NoDup (PyDict.keys d) -> NoDup (PyDict.keys (PyDict.set d k v)).
Proof.
  intros Hnd. rewrite keys_set. case_decide; [assumption|].
  apply NoDup_app. split_and!; [assumption| |apply NoDup_singleton].
  intros x Hx ->%list_elem_of_singleton. contradiction.
Qed.

(** Storing a value computed from the key, for each key of a list. *)
Lemma get_fold_set (f : string -> V) (ks : list string) d k :
  PyDict.get (fold_left (fun d k => PyDict.set d k (f k)) ks d) k =
  if decide (k ∈ ks) then Some (f k) else PyDict.get d k.
Proof.
  revert d. induction ks as [|k0 ks IH]; intros d; cbn [fold_left].
  - rewrite decide_False by apply not_elem_of_nil. reflexivity.
  - rewrite IH, get_set.
    destruct (decide (k ∈ ks)) as [Hin|Hout].
    + rewrite decide_True by (by right). reflexivity.
    + destruct (decide (k = k0)) as [->|Hne].
      * rewrite decide_True by (by left). reflexivity.
      * rewrite decide_False; [reflexivity|].
        intros [?|?]%elem_of_cons; contradiction.
Qed.

Lemma keys_fold_set (f : string -> V) (ks : list string) d :
  NoDup (PyDict.keys d ++ ks) ->
  PyDict.keys (fold_left (fun d k => PyDict.set d k (f k)) ks d) =
  PyDict.keys d ++ ks.
Proof.
  revert d. induction ks as [|k0 ks IH]; intros d Hnd; simpl.
  - by rewrite app_nil_r.
  - assert (k0 ∉ PyDict.keys d) as Hk0.
    { apply NoDup_app in Hnd as (_ & Hd & _). intros Hin.
      apply (Hd _ Hin). by left. }
    rewrite IH; rewrite keys_set, decide_False by assumption.
    + by rewrite <- app_assoc.
    + by rewrite <- app_assoc.
Qed.
End PyDictFacts.

(** ** The language-to-id mapping *)

Section LangToId.

Lemma lang_to_id_build languages :
  _lang_to_id languages = lang_to_id_loop [] 0 (split_langs languages).
Proof. reflexivity. Qed.

Lemma enumerate_from_snoc {A} i (l : list A) x :
  PyStr.enumerate_from i (l ++ [x]) =
  PyStr.enumerate_from i l ++ [(i + length l, x)].
Proof.
  revert i. induction l as [|y l IH]; intros i; simpl.
  - by rewrite Nat.add_0_r.
  - rewrite IH. by replace (S i + length l) with (i + S (length l)) by lia.
Qed.

Lemma build_snoc d i langs x :
  lang_to_id_loop d i (langs ++ [x]) =
  PyDict.set (lang_to_id_loop d i langs) x (i + length langs).
Proof.
  unfold lang_to_id_loop. rewrite enumerate_from_snoc, fold_left_app.
  reflexivity.
Qed.

Lemma build_distinct langs : forall d i,
  NoDup (PyDict.keys d ++ langs) ->
  lang_to_id_loop d i langs = d ++ zip langs (seq i (length langs)).
Proof.
  induction langs as [|x langs IH]; intros d i Hnd.
  - unfold lang_to_id_loop; simpl. by rewrite app_nil_r.
  - change (lang_to_id_loop d i (x :: langs))
      with (lang_to_id_loop (PyDict.set d x i) (S i) langs).
    assert (x ∉ PyDict.keys d) as Hx.
    { apply NoDup_app in Hnd as (_ & Hd & _). intros Hin.
      apply (Hd _ Hin). by left. }
    rewrite set_fresh by assumption.
    rewrite IH.
    + by rewrite <- app_assoc.
    + unfold PyDict.keys in *. rewrite map_app; simpl.
      by rewrite <- app_assoc.
Qed.

Lemma build_get langs k id :
  PyDict.get (lang_to_id_loop [] 0 langs) k = Some id <->
  langs !! id = Some k /\ forall j, id < j -> langs !! j ≠ Some k.
Proof.
  induction langs as [|x langs IH] using rev_ind.
  - unfold lang_to_id_loop; simpl.
    split; [discriminate | intros [H _]; discriminate].
  - rewrite build_snoc, get_set. simpl.
    destruct (decide (k = x)) as [->|Hne].
    + split.
      * intros [= <-]. split.
        -- rewrite lookup_app_r, Nat.sub_diag by lia. reflexivity.
        -- intros j Hj. rewrite lookup_ge_None_2; [discriminate|].
           rewrite length_app; simpl; lia.
      * intros [Hid Hlast]. f_equal.
        destruct (lt_eq_lt_dec id (length langs)) as [[Hlt|Heq]|Hgt].
        -- exfalso. apply (Hlast (length langs) Hlt).
           rewrite lookup_app_r, Nat.sub_diag by lia. reflexivity.
        -- by symmetry.
        -- apply lookup_lt_Some in Hid. rewrite length_app in Hid.
           simpl in Hid. lia.
    + rewrite IH. split.
      * intros [Hid Hlast]. split.
        -- rewrite lookup_app_l; [assumption|]. by eapply lookup_lt_Some.
        -- intros j Hj. destruct (decide (j < length langs)) as [Hlt|Hge].
           ++ rewrite lookup_app_l by assumption. by apply Hlast.
           ++ rewrite lookup_app_r by lia.
              destruct (j - length langs) as [|n]; simpl; [congruence|].
              by rewrite lookup_nil.
      * intros [Hid Hlast].
        assert (id < length langs) as Hlt.
        { pose proof (lookup_lt_Some _ _ _ Hid) as Hlen.
          rewrite length_app in Hlen. simpl in Hlen.
          destruct (decide (id = length langs)) as [->|]; [|lia].
          rewrite lookup_app_r, Nat.sub_diag in Hid by lia.
          simpl in Hid. congruence. }
        rewrite lookup_app_l in Hid by assumption. split; [assumption|].
        intros j Hj Hjk. apply (Hlast j Hj).
        rewrite lookup_app_l; [assumption|]. by eapply lookup_lt_Some.
Qed.

Lemma build_keys_NoDup langs : NoDup (PyDict.keys (lang_to_id_loop [] 0 langs)).
Proof.
  induction langs as [|x langs IH] using rev_ind.
  - apply NoDup_nil_2.
  - rewrite build_snoc. by apply NoDup_keys_set.
Qed.

Lemma build_keys_elem langs k :
  k ∈ PyDict.keys (lang_to_id_loop [] 0 langs) <-> k ∈ langs.
Proof.
  induction langs as [|x langs IH] using rev_ind.
  - reflexivity.
  - rewrite build_snoc, elem_of_keys_set, IH, elem_of_app,
      list_elem_of_singleton. tauto.
Qed.

Lemma build_keys_head langs :
  head (PyDict.keys (lang_to_id_loop [] 0 langs)) = head langs.
Proof.
  induction langs as [|x langs IH] using rev_ind; [reflexivity|].
  rewrite build_snoc, keys_set.
  destruct langs as [|y langs].
  - reflexivity.
  - assert (y ∈ PyDict.keys (lang_to_id_loop [] 0 (y :: langs))) as Hy.
    { apply build_keys_elem. by left. }
    case_decide; [exact IH|].
    destruct (PyDict.keys (lang_to_id_loop [] 0 (y :: langs))); [inversion Hy|].
    exact IH.
Qed.

End LangToId.

Lemma split_nonempty sep s : PyStr.split sep s ≠ [].
Proof.
  destruct s as [|c s]; simpl; [discriminate|].
  case_decide; [discriminate|]. destruct (PyStr.split sep s); discriminate.
Qed.

Lemma split_langs_nonempty languages : split_langs languages ≠ [].
Proof.
  unfold split_langs. pose proof (split_nonempty "," languages).
  destruct (PyStr.split "," languages); [contradiction | discriminate].
Qed.

Lemma lang_to_id_keys_head languages :
  head (PyDict.keys (_lang_to_id languages)) = head (split_langs languages).
Proof. rewrite lang_to_id_build. apply build_keys_head. Qed.

(** The mapping is never empty: [''.split(',')] is [['']]. *)
Lemma lang_to_id_first languages :
  exists lang, head (PyDict.keys (_lang_to_id languages)) = Some lang
            /\ head (split_langs languages) = Some lang.
Proof.
  rewrite lang_to_id_keys_head. pose proof (split_langs_nonempty languages).
  destruct (split_langs languages) as [|lang ?]; [contradiction|].
  by exists lang.
Qed.

(** When the fields [split_langs] returns are pairwise distinct, the
    mapping lists them in order with the ids [0, 1, ..., n-1]. *)
Lemma lang_to_id_distinct_fields (languages : string) :
  NoDup (split_langs languages) ->
  _lang_to_id languages =
    zip (split_langs languages) (seq 0 (length (split_langs languages)))
  /\ forall i lang, split_langs languages !! i = Some lang ->
       PyDict.get (_lang_to_id languages) lang = Some i.
Proof.
  intros Hnd. split.
  - rewrite lang_to_id_build. by rewrite build_distinct.
  - intros i lang Hi. rewrite lang_to_id_build. apply build_get.
    split; [assumption|]. intros j Hj Hjl.
    pose proof (NoDup_lookup _ _ _ _ Hnd Hi Hjl). lia.
Qed.

(** The mapping has one entry per distinct field that [split_langs]
    returns, and a field is mapped to the index of its last occurrence. *)
Lemma lang_to_id_fields_last_occurrence (languages : string) :
  let langs := split_langs languages in
  let lang2id := _lang_to_id languages in
  NoDup (PyDict.keys lang2id)
  /\ (forall lang, lang ∈ PyDict.keys lang2id <-> lang ∈ langs)
  /\ PyDict.keys lang2id ≡ₚ remove_dups langs
  /\ (forall lang id,
        PyDict.get lang2id lang = Some id <->
        langs !! id = Some lang
        /\ forall j, id < j -> langs !! j ≠ Some lang).
Proof.
  intros langs lang2id. subst langs lang2id. rewrite lang_to_id_build.
  split_and!.
  - apply build_keys_NoDup.
  - apply build_keys_elem.
  - apply NoDup_Permutation.
    + apply build_keys_NoDup.
    + apply NoDup_remove_dups.
    + intros k. rewrite build_keys_elem. symmetry. apply elem_of_remove_dups.
  - apply build_get.
Qed.

(** ** Running the loop *)

Section Frame.
Implicit Types (self : Task.t) (lang : string).

Lemma claim_default_key_frame self lang :
  Task.args (claim_default_key self lang) = Task.args self
  /\ Task.datasets (claim_default_key self lang) = Task.datasets self
  /\ Task.dictionary (claim_default_key self lang) = Task.dictionary self
  /\ Task.seed (claim_default_key self lang) = Task.seed self
  /\ Task.langs2id (claim_default_key self lang) = Task.langs2id self.
Proof. unfold claim_default_key. by destruct (Task.default_key self). Qed.

Lemma claim_default_key_value self lang :
  Task.default_key (claim_default_key self lang) =
  Some (default lang (Task.default_key self)).
Proof.
  unfold claim_default_key.
  by destruct (Task.default_key self) eqn:E; simpl; rewrite ?E.
Qed.

Lemma claim_default_key_set self lang :
  is_Some (Task.default_key self) -> claim_default_key self lang = self.
Proof. unfold claim_default_key. by intros [k ->]. Qed.

Lemma claim_default_key_twice self lang lang' :
  claim_default_key (claim_default_key self lang) lang' =
  claim_default_key self lang.
Proof.
  apply claim_default_key_set. rewrite claim_default_key_value. eauto.
Qed.

(** The closed forms only read what [claim_default_key] leaves alone. *)
Lemma closed_forms_frame fs self lang split :
  let self' := claim_default_key self lang in
  (forall l id, lang_dataset self' split l id = lang_dataset self split l id)
  /\ (forall l, shard_missing fs self' split l = shard_missing fs self split l)
  /\ (forall l, segment_id_of self' l = segment_id_of self l).
Proof.
  intros self'. subst self'.
  unfold lang_dataset, shard_missing, segment_id_of.
  destruct (claim_default_key_frame self lang) as (-> & _ & -> & -> & ->).
  done.
Qed.
End Frame.

Section Run.
Variable fs : FileSystem.
Implicit Types (self : Task.t) (split lang : string).

Lemma resolve_shard_run lsplit path self :
  resolve_shard fs lsplit path self =
  (if applicable_exists fs (Task.args self) path
   then inr (shard_for (Task.args self) (Task.dictionary self) path)
   else inl (FileNotFoundError
               (not_found_message lsplit (Args.data (Task.args self)))),
   self, [probe_event (Task.args self) path]).
Proof.
  unfold resolve_shard, applicable_exists, shard_for, probe_event,
    IndexedRawTextDataset_exists, IndexedDataset_exists,
    bind, get_self, emit, ret, raise.
  destruct (Args.raw_text (Task.args self)); simpl.
  - by destruct (raw_text_exists fs path).
  - destruct (indexed_exists fs path); [|done].
    by destruct (Args.lazy_load (Task.args self)).
Qed.

Lemma load_lang_run split dataset_map lang self :
  load_lang fs split dataset_map lang self =
  (if shard_missing fs self split lang
   then inl (FileNotFoundError
               (not_found_message (language_split split lang)
                  (Args.data (Task.args self))))
   else match PyDict.get (Task.langs2id self) lang with
        | Some id =>
            inr (PyDict.set dataset_map lang (lang_dataset self split lang id))
        | None => inl (KeyError lang)
        end,
   claim_default_key self lang,
   [probe_event (Task.args self)
      (shard_path (Args.data (Task.args self)) split lang)]).
Proof.
  destruct self as [a ds dict sd dws l2i dk].
  cbv beta iota zeta delta
    [load_lang resolve_shard bind get_self put_self emit ret raise getitem
     IndexedRawTextDataset_exists IndexedDataset_exists
     Task.args Task.default_key Task.set_default_key Task.dictionary
     Task.langs2id Task.seed shard_missing claim_default_key
     applicable_exists probe_event lang_dataset block_dataset_for
     shard_for shard_path language_split not_found_message negb app].
  destruct dk, (Args.raw_text a);
    repeat match goal with
           | |- context [raw_text_exists fs ?p] =>
               destruct (raw_text_exists fs p)
           | |- context [indexed_exists fs ?p] =>
               destruct (indexed_exists fs p)
           end;
    try reflexivity;
    destruct (Args.lazy_load a), (PyDict.get l2i lang); reflexivity.
Qed.
End Run.

Section MonadSteps.
Context {B : Type}.

Lemma bind_get_self (f : Task.t -> M B) self :
  bind get_self f self = f self self.
Proof. unfold bind, get_self. by destruct (f self self) as [[r s] tr]. Qed.

Lemma bind_put_self self' (f : unit -> M B) self :
  bind (put_self self') f self = f tt self'.
Proof. unfold bind, put_self. by destruct (f tt self') as [[r s] tr]. Qed.

Lemma bind_ret {A} (a : A) (f : A -> M B) self :
  bind (ret a) f self = f a self.
Proof. unfold bind, ret. by destruct (f a self) as [[r s] tr]. Qed.
End MonadSteps.

Section RunLoop.
Variable fs : FileSystem.
Implicit Types (self : Task.t) (split lang : string).

Lemma after_first_key_claimed self lang keys :
  after_first_key (claim_default_key self lang) keys =
  claim_default_key self lang.
Proof. destruct keys; [reflexivity|]. apply claim_default_key_twice. Qed.

Lemma first_missing_frame self lang split keys :
  first_missing fs (claim_default_key self lang) split keys =
  first_missing fs self split keys.
Proof.
  unfold first_missing. induction keys as [|k keys IH]; simpl; [done|].
  rewrite IH.
  by rewrite (proj1 (proj2 (closed_forms_frame fs self lang split))).
Qed.

Lemma probes_frame self lang split keys :
  probes fs (claim_default_key self lang) split keys =
  probes fs self split keys.
Proof.
  unfold probes.
  destruct (claim_default_key_frame self lang) as (-> & _).
  f_equal. induction keys as [|k keys IH]; simpl; [done|].
  rewrite IH.
  by rewrite (proj1 (proj2 (closed_forms_frame fs self lang split))).
Qed.

Lemma dataset_map_for_frame self lang split keys dataset_map :
  dataset_map_for (claim_default_key self lang) split keys dataset_map =
  dataset_map_for self split keys dataset_map.
Proof.
  unfold dataset_map_for. revert dataset_map.
  destruct (closed_forms_frame fs self lang split) as (Hd & _ & Hs).
  induction keys as [|k keys IH]; intros dataset_map; simpl; [done|].
  by rewrite IH, Hd, Hs.
Qed.

(** The whole loop: it stops at the first language whose shard is
    missing, and otherwise returns the filled [dataset_map]. *)
Lemma for_langs_run split keys : forall dataset_map self,
  (forall lang, lang ∈ keys -> lang ∈ PyDict.keys (Task.langs2id self)) ->
  for_langs fs split keys dataset_map self =
  (match first_missing fs self split keys with
   | Some lang =>
       inl (FileNotFoundError
              (not_found_message (language_split split lang)
                 (Args.data (Task.args self))))
   | None => inr (dataset_map_for self split keys dataset_map)
   end,
   after_first_key self keys,
   probes fs self split keys).
Proof.
  induction keys as [|lang keys IH]; intros dataset_map self Hkeys.
  - reflexivity.
  - cbn [for_langs]. unfold bind. rewrite load_lang_run.
    assert (is_Some (PyDict.get (Task.langs2id self) lang)) as [id Hid].
    { apply get_is_Some, Hkeys. by left. }
    unfold first_missing, probes. cbn [find probed map after_first_key].
    destruct (shard_missing fs self split lang) eqn:Hmiss; [reflexivity|].
    rewrite Hid, IH.
    + rewrite after_first_key_claimed, first_missing_frame, probes_frame,
        dataset_map_for_frame.
      destruct (claim_default_key_frame self lang) as (-> & _).
      fold (first_missing fs self split keys).
      cbn [dataset_map_for fold_left]. unfold segment_id_of at 2.
      rewrite Hid. cbn [default].
      by destruct (first_missing fs self split keys).
    + intros l Hl.
      destruct (claim_default_key_frame self lang) as (_ & _ & _ & _ & ->).
      apply Hkeys. by right.
Qed.

Lemma load_dataset_run split combine self :
  let keys := PyDict.keys (Task.langs2id self) in
  let self' := after_first_key self keys in
  load_dataset fs split combine self =
  match first_missing fs self split keys with
  | Some lang =>
      (inl (FileNotFoundError
              (not_found_message (language_split split lang)
                 (Args.data (Task.args self)))),
       self', probes fs self split keys)
  | None =>
      let merged :=
        MultiCorpusSampledDataset.mk
          (dataset_map_for self split keys PyDict.empty)
          (Task.default_key self') in
      (inr tt,
       Task.set_datasets self' (<[split := merged]> (Task.datasets self')),
       probes fs self split keys ++
         [PrintExamples (Args.data (Task.args self)) split merged])
  end.
Proof.
  intros keys self'. unfold load_dataset.
  rewrite bind_get_self. unfold bind at 1. rewrite for_langs_run by done.
  fold keys. fold self'.
  destruct (first_missing fs self split keys); [reflexivity|].
  assert (Task.args self' = Task.args self) as Hargs.
  { subst self'. destruct keys; [done|]. apply claim_default_key_frame. }
  cbn beta iota.
  rewrite bind_get_self, bind_put_self, bind_get_self.
  unfold datasets_getitem at 1. unfold bind at 1. rewrite bind_get_self.
  cbn [Task.datasets Task.set_datasets Task.args].
  rewrite lookup_insert_eq, Hargs.
  unfold bind, ret, emit. cbn [app]. reflexivity.
Qed.
End RunLoop.

(** ** What a load leaves behind *)

Section LoadFacts.
Variable fs : FileSystem.
Implicit Types (self : Task.t) (split lang : string).

(** The closed forms read the configuration, the dictionary, the seed and
    the language mapping, never the default key or the registry. *)
Lemma closed_forms_ext self1 self2 split keys dataset_map :
  Task.args self1 = Task.args self2 ->
  Task.dictionary self1 = Task.dictionary self2 ->
  Task.seed self1 = Task.seed self2 ->
  Task.langs2id self1 = Task.langs2id self2 ->
  first_missing fs self1 split keys = first_missing fs self2 split keys
  /\ probes fs self1 split keys = probes fs self2 split keys
  /\ dataset_map_for self1 split keys dataset_map =
     dataset_map_for self2 split keys dataset_map.
Proof.
  destruct self1, self2.
  cbn [Task.args Task.dictionary Task.seed Task.langs2id].
  intros -> -> -> ->. split_and!; [reflexivity| |reflexivity].
  unfold probes. cbn [Task.args]. f_equal.
  induction keys as [|k keys IH]; [done|].
  cbn [probed]. rewrite IH. reflexivity.
Qed.

Lemma after_first_key_frame self keys :
  Task.args (after_first_key self keys) = Task.args self
  /\ Task.datasets (after_first_key self keys) = Task.datasets self
  /\ Task.dictionary (after_first_key self keys) = Task.dictionary self
  /\ Task.seed (after_first_key self keys) = Task.seed self
  /\ Task.langs2id (after_first_key self keys) = Task.langs2id self.
Proof. destruct keys; [done|]. apply claim_default_key_frame. Qed.

Lemma after_first_key_value self keys :
  Task.default_key (after_first_key self keys) =
  match Task.default_key self with
  | Some key => Some key
  | None => head keys
  end.
Proof.
  destruct keys as [|lang keys]; simpl.
  - by destruct (Task.default_key self).
  - rewrite claim_default_key_value. by destruct (Task.default_key self).
Qed.

Lemma first_missing_Some self split keys lang :
  first_missing fs self split keys = Some lang ->
  lang ∈ keys /\ shard_missing fs self split lang = true.
Proof.
  intros [Hin Hm]%find_some. by apply list_elem_of_In in Hin.
Qed.

Lemma first_missing_None self split keys :
  first_missing fs self split keys = None <->
  forall lang, lang ∈ keys -> shard_missing fs self split lang = false.
Proof.
  split.
  - intros Hnone lang Hin. apply list_elem_of_In in Hin.
    exact (find_none _ _ Hnone lang Hin).
  - intros Hall. destruct (first_missing fs self split keys) as [lang|] eqn:E;
      [|reflexivity].
    apply first_missing_Some in E as [Hin Hm].
    rewrite (Hall lang Hin) in Hm. discriminate.
Qed.

Lemma dataset_map_for_get self split keys lang :
  PyDict.get (dataset_map_for self split keys PyDict.empty) lang =
  if decide (lang ∈ keys)
  then Some (lang_dataset self split lang (segment_id_of self lang))
  else None.
Proof. unfold dataset_map_for. by rewrite get_fold_set. Qed.

Lemma load_dataset_outcome split combine self :
  outcome (load_dataset fs split combine self) =
  match first_missing fs self split (PyDict.keys (Task.langs2id self)) with
  | Some lang =>
      inl (FileNotFoundError
             (not_found_message (language_split split lang)
                (Args.data (Task.args self))))
  | None => inr tt
  end.
Proof.
  rewrite load_dataset_run.
  by destruct (first_missing fs self split (PyDict.keys (Task.langs2id self))).
Qed.

Lemma load_dataset_default_key split combine self :
  Task.default_key (final (load_dataset fs split combine self)) =
  match Task.default_key self with
  | Some key => Some key
  | None => head (PyDict.keys (Task.langs2id self))
  end.
Proof.
  rewrite load_dataset_run.
  destruct (first_missing fs self split (PyDict.keys (Task.langs2id self)));
    apply after_first_key_value.
Qed.

Lemma load_dataset_frame split combine self :
  Task.args (final (load_dataset fs split combine self)) = Task.args self
  /\ Task.dictionary (final (load_dataset fs split combine self)) =
     Task.dictionary self
  /\ Task.seed (final (load_dataset fs split combine self)) = Task.seed self
  /\ Task.langs2id (final (load_dataset fs split combine self)) =
     Task.langs2id self.
Proof.
  rewrite load_dataset_run.
  pose proof (after_first_key_frame self (PyDict.keys (Task.langs2id self)))
    as (? & ? & ? & ? & ?).
  by destruct (first_missing fs self split (PyDict.keys (Task.langs2id self))).
Qed.

Lemma load_dataset_registry split combine self :
  Task.datasets (final (load_dataset fs split combine self)) =
  match outcome (load_dataset fs split combine self) with
  | inl _ => Task.datasets self
  | inr _ =>
      <[split :=
          MultiCorpusSampledDataset.mk
            (dataset_map_for self split (PyDict.keys (Task.langs2id self))
               PyDict.empty)
            (Task.default_key (final (load_dataset fs split combine self)))]>
        (Task.datasets self)
  end.
Proof.
  rewrite load_dataset_run.
  pose proof (after_first_key_frame self (PyDict.keys (Task.langs2id self)))
    as (_ & Hd & _).
  destruct (first_missing fs self split (PyDict.keys (Task.langs2id self)));
    unfold outcome, final; simpl; by rewrite Hd.
Qed.
End LoadFacts.

Lemma run_loads_cons self fs split combine reqs :
  run_loads self ((fs, split, combine) :: reqs) =
  run_loads (final (load_dataset fs split combine self)) reqs.
Proof. reflexivity. Qed.

Lemma run_loads_langs2id reqs : forall self,
  Task.langs2id (run_loads self reqs) = Task.langs2id self.
Proof.
  induction reqs as [|[[fs split] combine] reqs IH]; intros self; [done|].
  rewrite run_loads_cons, IH. apply load_dataset_frame.
Qed.

(** Once set, the default key survives any series of loads. *)
Lemma run_loads_default_key reqs : forall self key,
  Task.default_key self = Some key ->
  Task.default_key (run_loads self reqs) = Some key.
Proof.
  induction reqs as [|[[fs split] combine] reqs IH]; intros self key Hkey;
    [done|].
  rewrite run_loads_cons. apply IH.
  by rewrite load_dataset_default_key, Hkey.
Qed.

(** Every merged dataset in the registry carries the key [lang], and the
    task's default key is unset or [lang] already: kept by any series of
    loads on a task whose first language is [lang]. *)
Lemma run_loads_first_language lang reqs : forall self,
  head (PyDict.keys (Task.langs2id self)) = Some lang ->
  Task.default_key self = None \/ Task.default_key self = Some lang ->
  (forall split merged, Task.datasets self !! split = Some merged ->
     MultiCorpusSampledDataset.default_key merged = Some lang) ->
  (forall split merged,
     Task.datasets (run_loads self reqs) !! split = Some merged ->
     MultiCorpusSampledDataset.default_key merged = Some lang)
  /\ (reqs ≠ [] -> Task.default_key (run_loads self reqs) = Some lang).
Proof.
  induction reqs as [|[[fs split0] combine] reqs IH];
    intros self Hhead Hkey Hreg.
  - split; [exact Hreg | done].
  - rewrite run_loads_cons.
    set (self1 := final (load_dataset fs split0 combine self)).
    assert (Task.default_key self1 = Some lang) as Hkey1.
    { subst self1. rewrite load_dataset_default_key.
      by destruct Hkey as [-> | ->]. }
    assert (Task.langs2id self1 = Task.langs2id self) as Hl2i
      by apply load_dataset_frame.
    destruct (IH self1) as [Hreg' _].
    + by rewrite Hl2i.
    + by right.
    + intros split merged. subst self1. rewrite load_dataset_registry.
      destruct (outcome (load_dataset fs split0 combine self)); [apply Hreg|].
      rewrite lookup_insert. case_decide; [|apply Hreg].
      intros [= <-]. exact Hkey1.
    + split; [exact Hreg'|]. intros _. by apply run_loads_default_key.
Qed.

(** C3. A load that raises leaves the registry as it found it: nothing is
    stored under the split, nor under any other name. *)
Theorem failed_load_registers_nothing
    (fs : FileSystem) (self : Task.t) (split : string) (combine : bool)
    (e : Exn) :
  outcome (load_dataset fs split combine self) = inl e ->
  Task.datasets (final (load_dataset fs split combine self)) =
  Task.datasets self.
Proof. intros He. by rewrite load_dataset_registry, He. Qed.

Lemma failed_load_registers_nothing_witness :
  let self := final (load_dataset sample_fs "train" false
                       (__init__ sample_args sample_dictionary)) in
  outcome (load_dataset sample_fs "valid" false self) =
    inl (FileNotFoundError "Dataset not found: valid.fr (data)")
  /\ Task.datasets (final (load_dataset sample_fs "valid" false self)) =
     Task.datasets self.
Proof.
  intros self.
  assert (outcome (load_dataset sample_fs "valid" false self) =
          inl (FileNotFoundError "Dataset not found: valid.fr (data)")) as He.
  { vm_compute. reflexivity. }
  split; [exact He|].
  exact (failed_load_registers_nothing sample_fs self "valid" false _ He).
Defined.


(** C9. On a task whose default key is unset, a load that raises the
    dataset-not-found error has already stored the first iterated language
    as the default key, and no later load changes it. *)
Theorem failed_load_sets_default_key
    (fs : FileSystem) (self : Task.t) (split : string) (combine : bool)
    (msg : string) (reqs : list Request) :
  Task.default_key self = None ->
  outcome (load_dataset fs split combine self) = inl (FileNotFoundError msg) ->
  exists lang,
    head (PyDict.keys (Task.langs2id self)) = Some lang
    /\ Task.default_key (final (load_dataset fs split combine self)) = Some lang
    /\ Task.default_key
         (run_loads (final (load_dataset fs split combine self)) reqs)
       = Some lang.
Proof.
  intros Hnone Herr. rewrite load_dataset_outcome in Herr.
  destruct (first_missing fs self split (PyDict.keys (Task.langs2id self)))
    as [l|] eqn:Hmiss; [|discriminate].
  apply first_missing_Some in Hmiss as [Hin _].
  destruct (PyDict.keys (Task.langs2id self)) as [|lang keys] eqn:Hkeys;
    [inversion Hin|].
  exists lang. split; [reflexivity|].
  assert (Task.default_key (final (load_dataset fs split combine self))
          = Some lang) as Hkey.
  { by rewrite load_dataset_default_key, Hnone, Hkeys. }
  split; [exact Hkey | by apply run_loads_default_key].
Qed.

Lemma failed_load_sets_default_key_witness :
  let self := __init__ sample_args sample_dictionary in
  Task.default_key self = None
  /\ outcome (load_dataset sample_fs "valid" false self) =
       inl (FileNotFoundError "Dataset not found: valid.fr (data)")
  /\ Task.default_key (final (load_dataset sample_fs "valid" false self))
     = Some "en"
  /\ Task.default_key
       (run_loads (final (load_dataset sample_fs "valid" false self))
          [(sample_fs, "train", false)])
     = Some "en".
Proof.
  intros self.
  assert (Task.default_key self = None) as Hnone by reflexivity.
  assert (outcome (load_dataset sample_fs "valid" false self) =
          inl (FileNotFoundError "Dataset not found: valid.fr (data)")) as He.
  { vm_compute. reflexivity. }
  split; [exact Hnone|]. split; [exact He|].
  destruct (failed_load_sets_default_key sample_fs self "valid" false _
              [(sample_fs, "train", false)] Hnone He)
    as (lang & Hhead & Hkey & Hlater).
  assert (lang = "en") as -> by (vm_compute in Hhead; congruence).
  split; [exact Hkey | exact Hlater].
Defined.

(** ** Shard resolution *)

(** Where the three components of the shard path are plain (a non-empty
    directory not ending in a slash, a split not starting with one), the
    path is [<data>/<split>.<lang>]. *)
Lemma shard_path_plain data split lang :
  data ≠ "" -> PyStr.endswith data "/" = false ->
  PyStr.startswith split "/" = false -> split ≠ "" ->
  shard_path data split lang = data +:+ "/" +:+ split +:+ "." +:+ lang.
Proof.
  intros Hdata Hend Hstart Hsplit.
  unfold shard_path, os_path_join, language_split.
  destruct split as [|c split]; [done|]. simpl in Hstart |- *.
  rewrite Hstart, Hend, bool_decide_eq_false_2 by assumption. reflexivity.
Qed.

(** The configuration of the counterexample: [--raw-text] is set, the
    directory holds the binary shard [train.en] and no raw-text one. The
    wording of the specification falls through to the binary shard; the
    code tests [not self.args.raw_text] first and raises. *)
Lemma shard_resolution_not_as_specified :
  let self := __init__ sample_args_raw sample_dictionary in
  raw_text_exists sample_fs "data/train.en" = false
  /\ indexed_exists sample_fs "data/train.en" = true
  /\ resolve_shard_as_specified sample_fs (Task.args self)
       (Task.dictionary self) "train.en" "data/train.en"
     = inr (IndexedCachedDataset "data/train.en" true)
  /\ outcome (resolve_shard sample_fs "train.en" "data/train.en" self)
     = inl (FileNotFoundError "Dataset not found: train.en (data)")
  /\ outcome (load_dataset sample_fs "train" false self)
     = inl (FileNotFoundError "Dataset not found: train.en (data)")
  /\ outcome (resolve_shard sample_fs "train.en" "data/train.en" self)
     ≠ resolve_shard_as_specified sample_fs (Task.args self)
         (Task.dictionary self) "train.en" "data/train.en".
Proof.
  intros self. split_and!; try (vm_compute; reflexivity).
  vm_compute. discriminate.
Qed.

(** C2, amended. For every language the loop reaches, one existence test
    is made, the one of the configured format, at the shard path. In
    raw-text mode the raw-text shard is loaded if it exists; out of
    raw-text mode the binary shard is loaded if it exists, lazily when the
    lazy-load flag is set and cached otherwise; in all other cases, a
    binary shard in raw-text mode included, the error is raised, its
    message naming split, language and directory. A load raises if and
    only if, for some language of the mapping, no shard of the configured
    format exists; the error then names the first such language, and on
    success every language's entry wraps the shard so resolved. *)
Theorem shard_resolution
    (fs : FileSystem) (self : Task.t) (split : string) (combine : bool) :
  let a := Task.args self in
  let keys := PyDict.keys (Task.langs2id self) in
  let path lang := shard_path (Args.data a) split lang in
  (forall language_split path,
     resolve_shard fs language_split path self =
     (if Args.raw_text a then
        if raw_text_exists fs path
        then inr (IndexedRawTextDataset path (Task.dictionary self))
        else inl (FileNotFoundError
                    (not_found_message language_split (Args.data a)))
      else
        if indexed_exists fs path
        then inr (if Args.lazy_load a then IndexedDataset path true
                  else IndexedCachedDataset path true)
        else inl (FileNotFoundError
                    (not_found_message language_split (Args.data a))),
      self,
      [if Args.raw_text a then ProbeRawText path else ProbeIndexed path]))
  /\ ((exists e, outcome (load_dataset fs split combine self) = inl e) <->
      (exists lang,
         lang ∈ keys /\ applicable_exists fs a (path lang) = false))
  /\ match outcome (load_dataset fs split combine self) with
     | inl e =>
         exists lang,
           lang ∈ keys
           /\ applicable_exists fs a (path lang) = false
           /\ e = FileNotFoundError
                    ("Dataset not found: " +:+ (split +:+ "." +:+ lang) +:+
                     " (" +:+ Args.data a +:+ ")")
     | inr _ =>
         exists merged,
           Task.datasets (final (load_dataset fs split combine self)) !! split
           = Some merged
           /\ forall lang, lang ∈ keys ->
                applicable_exists fs a (path lang) = true
                /\ exists mlm,
                     PyDict.get (MultiCorpusSampledDataset.datasets merged) lang
                     = Some mlm
                     /\ TokenBlockDataset.dataset (MaskedLMDataset.dataset mlm)
                        = shard_for a (Task.dictionary self) (path lang)
     end.
Proof.
  intros a keys path. subst a keys path. split_and!.
  - intros lsplit path. rewrite resolve_shard_run.
    unfold applicable_exists, shard_for, probe_event.
    destruct (Args.raw_text (Task.args self)); [reflexivity|].
    by destruct (indexed_exists fs path).
  - rewrite load_dataset_outcome.
    destruct (first_missing fs self split (PyDict.keys (Task.langs2id self)))
      as [lang|] eqn:Hfm.
    + apply first_missing_Some in Hfm as [Hin Hmiss].
      apply negb_true_iff in Hmiss. split; eauto.
    + split; [intros [e He]; discriminate|].
      intros (lang & Hin & Hmiss).
      rewrite first_missing_None in Hfm. specialize (Hfm lang Hin).
      apply negb_false_iff in Hfm. congruence.
  - rewrite load_dataset_registry, load_dataset_outcome.
    destruct (first_missing fs self split (PyDict.keys (Task.langs2id self)))
      as [lang|] eqn:Hfm.
    + apply first_missing_Some in Hfm as [Hin Hmiss].
      apply negb_true_iff in Hmiss. exists lang. split_and!; done.
    + eexists. split; [apply lookup_insert_eq|].
      intros lang Hin. rewrite first_missing_None in Hfm.
      specialize (Hfm lang Hin). apply negb_false_iff in Hfm.
      split; [exact Hfm|]. cbn [MultiCorpusSampledDataset.datasets].
      rewrite dataset_map_for_get, decide_True by assumption.
      eexists. split; reflexivity.
Qed.

(** ** The per-language datasets *)

(** What one successful pass of the loop body stores under [lang]. *)
Lemma load_lang_stores fs split dataset_map lang self dataset_map' :
  outcome (load_lang fs split dataset_map lang self) = inr dataset_map' ->
  exists id,
    PyDict.get (Task.langs2id self) lang = Some id
    /\ PyDict.get dataset_map' lang = Some (lang_dataset self split lang id).
Proof.
  rewrite load_lang_run. unfold outcome; simpl.
  destruct (shard_missing fs self split lang); [discriminate|].
  destruct (PyDict.get (Task.langs2id self) lang) as [id|]; [|discriminate].
  intros [= <-]. exists id. split; [reflexivity|].
  by rewrite get_set, decide_True.
Qed.

(** What a successful load stores under [split]: one entry per language of
    the mapping, built from that language's id. *)
Lemma load_dataset_stores fs split combine self :
  outcome (load_dataset fs split combine self) = inr tt ->
  exists merged,
    Task.datasets (final (load_dataset fs split combine self)) !! split
    = Some merged
    /\ MultiCorpusSampledDataset.default_key merged =
       Task.default_key (final (load_dataset fs split combine self))
    /\ forall lang,
         PyDict.get (MultiCorpusSampledDataset.datasets merged) lang =
         match PyDict.get (Task.langs2id self) lang with
         | Some id => Some (lang_dataset self split lang id)
         | None => None
         end.
Proof.
  intros Hok. rewrite load_dataset_registry, Hok.
  eexists. split; [apply lookup_insert_eq|]. split; [reflexivity|].
  intros lang. cbn [MultiCorpusSampledDataset.datasets].
  rewrite dataset_map_for_get. unfold segment_id_of.
  case_decide as Hin.
  - apply get_is_Some in Hin as [id ->]. reflexivity.
  - apply get_None in Hin. by rewrite Hin.
Qed.

(** C6. Whatever the value [t] of tokens-per-sample, the block segmenter
    built for a language has block size [t - 1] and the dictionary's
    padding and end-of-sequence indices: for the entry each successful
    pass of the loop body stores, and for every entry of the merged
    dataset a successful load registers, which has one per language. *)
Theorem block_size_is_tokens_per_sample_minus_one
    (fs : FileSystem) (self : Task.t) (split : string) (combine : bool) :
  let configured (mlm : MaskedLMDataset.t) :=
    let block_dataset := MaskedLMDataset.dataset mlm in
    TokenBlockDataset.block_size block_dataset =
      (Args.tokens_per_sample (Task.args self) - 1)%Z
    /\ TokenBlockDataset.pad block_dataset =
       MaskedLMDictionary.pad (Task.dictionary self)
    /\ TokenBlockDataset.eos block_dataset =
       MaskedLMDictionary.eos (Task.dictionary self) in
  (forall dataset_map lang dataset_map',
     outcome (load_lang fs split dataset_map lang self) = inr dataset_map' ->
     exists mlm, PyDict.get dataset_map' lang = Some mlm /\ configured mlm)
  /\ (outcome (load_dataset fs split combine self) = inr tt ->
      exists merged,
        Task.datasets (final (load_dataset fs split combine self)) !! split
        = Some merged
        /\ (forall lang, lang ∈ PyDict.keys (Task.langs2id self) ->
              is_Some (PyDict.get (MultiCorpusSampledDataset.datasets merged)
                         lang))
        /\ (forall lang mlm,
              PyDict.get (MultiCorpusSampledDataset.datasets merged) lang
              = Some mlm -> configured mlm)).
Proof.
  intros configured. split.
  - intros dataset_map lang dataset_map' Hok.
    apply load_lang_stores in Hok as (id & _ & Hget).
    eexists. split; [exact Hget|]. by repeat split.
  - intros Hok. apply load_dataset_stores in Hok as (merged & Hreg & _ & Hget).
    exists merged. split; [exact Hreg|]. split.
    + intros lang [id Hid]%get_is_Some. rewrite Hget, Hid. eauto.
    + intros lang mlm. rewrite Hget.
      destruct (PyDict.get (Task.langs2id self) lang); [|discriminate].
      intros [= <-]. by repeat split.
Qed.

(** With [--tokens-per-sample 128] the blocks have 127 tokens. *)
Lemma block_size_is_tokens_per_sample_minus_one_witness :
  let self := __init__ sample_args sample_dictionary in
  outcome (load_dataset sample_fs "train" false self) = inr tt
  /\ exists merged,
       Task.datasets (final (load_dataset sample_fs "train" false self))
         !! "train" = Some merged
       /\ forall lang mlm,
            PyDict.get (MultiCorpusSampledDataset.datasets merged) lang
            = Some mlm ->
            TokenBlockDataset.block_size (MaskedLMDataset.dataset mlm) = 127%Z.
Proof.
  intros self.
  assert (outcome (load_dataset sample_fs "train" false self) = inr tt) as Hok.
  { vm_compute. reflexivity. }
  split; [exact Hok|].
  destruct (proj2 (block_size_is_tokens_per_sample_minus_one
                     sample_fs self "train" false) Hok)
    as (merged & Hreg & _ & Hcfg).
  exists merged. split; [exact Hreg|].
  intros lang mlm Hget. exact (proj1 (Hcfg lang mlm Hget)).
Defined.

(** C7. Whatever the split, the example builder of a language is given
    that language's id in the mapping as its segment id: for the entry
    each successful pass of the loop body stores, and for every entry of
    the merged dataset a successful load registers, whose languages are
    exactly those of the mapping. *)
Theorem segment_id_is_language_id
    (fs : FileSystem) (self : Task.t) (split : string) (combine : bool) :
  (forall dataset_map lang dataset_map',
     outcome (load_lang fs split dataset_map lang self) = inr dataset_map' ->
     exists mlm,
       PyDict.get dataset_map' lang = Some mlm
       /\ PyDict.get (Task.langs2id self) lang
          = Some (MaskedLMDataset.segment_id mlm))
  /\ (outcome (load_dataset fs split combine self) = inr tt ->
      exists merged,
        Task.datasets (final (load_dataset fs split combine self)) !! split
        = Some merged
        /\ (forall lang,
              is_Some (PyDict.get (MultiCorpusSampledDataset.datasets merged)
                         lang)
              <-> lang ∈ PyDict.keys (Task.langs2id self))
        /\ (forall lang mlm,
              PyDict.get (MultiCorpusSampledDataset.datasets merged) lang
              = Some mlm ->
              PyDict.get (Task.langs2id self) lang
              = Some (MaskedLMDataset.segment_id mlm))).
Proof.
  split.
  - intros dataset_map lang dataset_map' Hok.
    apply load_lang_stores in Hok as (id & Hid & Hget).
    eexists. split; [exact Hget | exact Hid].
  - intros Hok. apply load_dataset_stores in Hok as (merged & Hreg & _ & Hget).
    exists merged. split; [exact Hreg|]. split.
    + intros lang. rewrite Hget, <- get_is_Some.
      destruct (PyDict.get (Task.langs2id self) lang); split; eauto;
        intros [? ?]; discriminate.
    + intros lang mlm. rewrite Hget.
      destruct (PyDict.get (Task.langs2id self) lang); [|discriminate].
      by intros [= <-].
Qed.

Lemma segment_id_is_language_id_witness :
  let self := __init__ sample_args sample_dictionary in
  outcome (load_dataset sample_fs "train" false self) = inr tt
  /\ exists merged,
       Task.datasets (final (load_dataset sample_fs "train" false self))
         !! "train" = Some merged
       /\ forall lang mlm,
            PyDict.get (MultiCorpusSampledDataset.datasets merged) lang
            = Some mlm ->
            PyDict.get [("en", 0); ("fr", 1)] lang
            = Some (MaskedLMDataset.segment_id mlm).
Proof.
  intros self.
  assert (outcome (load_dataset sample_fs "train" false self) = inr tt) as Hok.
  { vm_compute. reflexivity. }
  split; [exact Hok|].
  destruct (proj2 (segment_id_is_language_id sample_fs self "train" false) Hok)
    as (merged & Hreg & _ & Hseg).
  exists merged. split; [exact Hreg|]. exact Hseg.
Defined.

(** ** The shuffle option *)

Lemma load_dataset_trace fs split combine self :
  trace (load_dataset fs split combine self) =
  probes fs self split (PyDict.keys (Task.langs2id self)) ++
  match outcome (load_dataset fs split combine self) with
  | inl _ => []
  | inr _ =>
      [PrintExamples (Args.data (Task.args self)) split
         (MultiCorpusSampledDataset.mk
            (dataset_map_for self split (PyDict.keys (Task.langs2id self))
               PyDict.empty)
            (Task.default_key (final (load_dataset fs split combine self))))]
  end.
Proof.
  rewrite load_dataset_run.
  destruct (first_missing fs self split (PyDict.keys (Task.langs2id self)));
    unfold trace, outcome, final; simpl; by rewrite ?app_nil_r.
Qed.

(** A namespace without [shuffle] and one with [shuffle = False] give the
    same closed forms. *)
Lemma closed_forms_shuffle fs self a split keys dataset_map :
  let self_absent := Task.set_args self (Args.with_shuffle a None) in
  let self_false := Task.set_args self (Args.with_shuffle a (Some false)) in
  first_missing fs self_absent split keys =
  first_missing fs self_false split keys
  /\ probes fs self_absent split keys = probes fs self_false split keys
  /\ dataset_map_for self_absent split keys dataset_map =
     dataset_map_for self_false split keys dataset_map.
Proof.
  intros self_absent self_false. subst self_absent self_false.
  destruct self, a. split_and!; [reflexivity| |reflexivity].
  unfold probes. cbn [Task.args Task.set_args Args.with_shuffle Args.data
                      Args.raw_text]. f_equal.
  induction keys as [|k keys IH]; [done|].
  cbn [probed]. rewrite IH. reflexivity.
Qed.

(** C10. A configuration without any [shuffle] attribute is read as
    [shuffle = False]: the load raises no error for the absent attribute
    (it returns normally whenever every shard of the configured format
    exists), and its outcome, its events, the default key and the
    registry it leaves are those of the same load with the flag false;
    the datasets it registers do not shuffle. *)
Theorem shuffle_absent_is_false
    (fs : FileSystem) (self : Task.t) (a : Args.t) (split : string)
    (combine : bool) :
  let self_absent := Task.set_args self (Args.with_shuffle a None) in
  let self_false := Task.set_args self (Args.with_shuffle a (Some false)) in
  let r_absent := load_dataset fs split combine self_absent in
  let r_false := load_dataset fs split combine self_false in
  outcome r_absent = outcome r_false
  /\ trace r_absent = trace r_false
  /\ Task.default_key (final r_absent) = Task.default_key (final r_false)
  /\ Task.datasets (final r_absent) = Task.datasets (final r_false)
  /\ ((forall lang, lang ∈ PyDict.keys (Task.langs2id self) ->
         applicable_exists fs a (shard_path (Args.data a) split lang) = true) ->
      outcome r_absent = inr tt)
  /\ (outcome r_absent = inr tt ->
      exists merged,
        Task.datasets (final r_absent) !! split = Some merged
        /\ forall lang mlm,
             PyDict.get (MultiCorpusSampledDataset.datasets merged) lang
             = Some mlm -> MaskedLMDataset.shuffle mlm = false).
Proof.
  intros self_absent self_false r_absent r_false.
  assert (Task.langs2id self_absent = Task.langs2id self_false) as Hl2i
    by reflexivity.
  assert (Task.default_key (final r_absent) = Task.default_key (final r_false))
    as Hkey.
  { subst r_absent r_false. rewrite !load_dataset_default_key. reflexivity. }
  assert (outcome r_absent = outcome r_false) as Hout.
  { subst r_absent r_false. rewrite !load_dataset_outcome, Hl2i.
    subst self_absent self_false.
    rewrite (proj1 (closed_forms_shuffle fs self a split _ PyDict.empty)).
    by destruct a. }
  split_and!.
  - exact Hout.
  - unfold r_absent, r_false. rewrite !load_dataset_trace.
    fold r_absent r_false. rewrite Hout, Hkey, Hl2i.
    subst self_absent self_false.
    destruct (closed_forms_shuffle fs self a split
                (PyDict.keys
                   (Task.langs2id
                      (Task.set_args self (Args.with_shuffle a (Some false)))))
                PyDict.empty) as (_ & -> & ->).
    by destruct a.
  - exact Hkey.
  - unfold r_absent, r_false. rewrite !load_dataset_registry.
    fold r_absent r_false. rewrite Hout, Hkey, Hl2i.
    subst self_absent self_false.
    destruct (closed_forms_shuffle fs self a split
                (PyDict.keys
                   (Task.langs2id
                      (Task.set_args self (Args.with_shuffle a (Some false)))))
                PyDict.empty) as (_ & _ & ->).
    reflexivity.
  - intros Hall. subst r_absent. rewrite load_dataset_outcome.
    assert (first_missing fs self_absent split
              (PyDict.keys (Task.langs2id self_absent)) = None) as ->;
      [|reflexivity].
    apply first_missing_None. intros lang Hin.
    unfold shard_missing. apply negb_false_iff.
    specialize (Hall lang Hin). subst self_absent. by destruct a.
  - intros Hok. subst r_absent.
    apply load_dataset_stores in Hok as (merged & Hreg & _ & Hget).
    exists merged. split; [exact Hreg|].
    intros lang mlm. rewrite Hget.
    destruct (PyDict.get (Task.langs2id self_absent) lang); [|discriminate].
    by intros [= <-].
Qed.

Lemma shuffle_absent_is_false_witness :
  let self := __init__ sample_args sample_dictionary in
  let self_absent := Task.set_args self (Args.with_shuffle sample_args None) in
  Args.shuffle (Task.args self_absent) = None
  /\ outcome (load_dataset sample_fs "train" false self_absent) = inr tt
  /\ load_dataset sample_fs "train" false self = (inr tt,
       final (load_dataset sample_fs "train" false self),
       trace (load_dataset sample_fs "train" false self_absent)).
Proof.
  intros self self_absent.
  destruct (shuffle_absent_is_false sample_fs self sample_args "train" false)
    as (Hout & Htr & _ & _ & Hok & _).
  split; [reflexivity|]. split.
  - apply Hok. intros lang Hin.
    assert (lang = "en" \/ lang = "fr") as [-> | ->]; [|reflexivity..].
    apply elem_of_cons in Hin as [?|Hin]; [by left|].
    apply elem_of_cons in Hin as [?|Hin]; [by right|]. inversion Hin.
  - fold self_absent in Htr. rewrite Htr. vm_compute. reflexivity.
Defined.

(** ** Loading a split again *)

Lemma after_first_key_idem self keys :
  after_first_key (after_first_key self keys) keys = after_first_key self keys.
Proof. destruct keys; [reflexivity|]. apply claim_default_key_twice. Qed.

Lemma after_first_key_set_datasets self keys d :
  after_first_key (Task.set_datasets self d) keys =
  Task.set_datasets (after_first_key self keys) d.
Proof.
  destruct keys as [|lang keys]; [reflexivity|]. simpl.
  unfold claim_default_key. simpl. by destruct (Task.default_key self).
Qed.

Lemma probes_elem fs self split keys lang :
  first_missing fs self split keys = None -> lang ∈ keys ->
  probe_event (Task.args self)
    (shard_path (Args.data (Task.args self)) split lang)
  ∈ probes fs self split keys.
Proof.
  unfold probes, first_missing.
  induction keys as [|k keys IH]; intros Hnone Hin; [inversion Hin|].
  simpl in Hnone |- *.
  destruct (shard_missing fs self split k); [discriminate|].
  apply elem_of_cons in Hin as [->|Hin]; [by left|].
  right. by apply IH.
Qed.

(** The task of the counterexample has [train] in its registry. Loading
    [train] again tests the file system for both shards, and once
    [train.fr] has been removed the load raises instead of returning the
    registered dataset. *)
Lemma reload_is_not_a_cache_hit :
  let self1 := final (load_dataset sample_fs "train" false
                        (__init__ sample_args sample_dictionary)) in
  is_Some (Task.datasets self1 !! "train")
  /\ take 2 (trace (load_dataset sample_fs "train" false self1))
     = [ProbeIndexed "data/train.en"; ProbeIndexed "data/train.fr"]
  /\ trace (load_dataset sample_fs "train" false self1) ≠ []
  /\ outcome (load_dataset sample_fs_later "train" false self1)
     = inl (FileNotFoundError "Dataset not found: train.fr (data)").
Proof.
  intros self1. split_and!.
  - vm_compute. eauto.
  - vm_compute. reflexivity.
  - vm_compute. discriminate.
  - vm_compute. reflexivity.
Qed.

(** C4, amended. [load_dataset] never consults the registry. Loading an
    already-loaded split runs the whole load again: against any file
    system its outcome is that of the same load on the task as it was
    before, and when it follows a successful load against the same file
    system it succeeds, tests every language's shard and prints the log
    line again (the same events as the first load), and stores an equal
    merged dataset under the split, so that the task object is left
    exactly as the first load left it. *)
Theorem reload_repeats_the_load
    (fs : FileSystem) (self : Task.t) (split : string)
    (combine combine' : bool) :
  outcome (load_dataset fs split combine self) = inr tt ->
  let self1 := final (load_dataset fs split combine self) in
  load_dataset fs split combine' self1 =
    (inr tt, self1, trace (load_dataset fs split combine self))
  /\ (forall lang, lang ∈ PyDict.keys (Task.langs2id self) ->
        probe_event (Task.args self)
          (shard_path (Args.data (Task.args self)) split lang)
        ∈ trace (load_dataset fs split combine' self1))
  /\ (forall fs',
        outcome (load_dataset fs' split combine' self1) =
        outcome (load_dataset fs' split combine' self)).
Proof.
  intros Hok self1.
  pose proof (load_dataset_frame fs split combine self)
    as (Hargs & Hdict & Hseed & Hl2i).
  fold self1 in Hargs, Hdict, Hseed, Hl2i.
  assert (first_missing fs self split (PyDict.keys (Task.langs2id self)) = None)
    as Hnone.
  { rewrite load_dataset_outcome in Hok.
    by destruct (first_missing fs self split
                   (PyDict.keys (Task.langs2id self))). }
  assert (load_dataset fs split combine' self1 =
          (inr tt, self1, trace (load_dataset fs split combine self)))
    as Hagain.
  { rewrite (load_dataset_run fs split combine' self1). cbv zeta.
    rewrite Hl2i, Hargs.
    destruct (closed_forms_ext fs self1 self split
                (PyDict.keys (Task.langs2id self)) PyDict.empty
                Hargs Hdict Hseed Hl2i) as (-> & -> & ->).
    rewrite Hnone.
    assert (after_first_key self1 (PyDict.keys (Task.langs2id self)) = self1)
      as ->.
    { subst self1. rewrite (load_dataset_run fs split combine self). cbv zeta.
      rewrite Hnone. unfold final. cbn [fst snd].
      by rewrite after_first_key_set_datasets, after_first_key_idem. }
    subst self1. rewrite (load_dataset_run fs split combine self). cbv zeta.
    rewrite Hnone. unfold final, trace. cbn [fst snd].
    cbn [Task.set_datasets Task.datasets Task.default_key].
    rewrite insert_insert_eq. reflexivity. }
  split_and!.
  - exact Hagain.
  - intros lang Hin. rewrite Hagain. unfold trace at 1. cbn [snd].
    rewrite load_dataset_trace. apply elem_of_app. left.
    by apply probes_elem.
  - intros fs'. rewrite !load_dataset_outcome, Hl2i, Hargs.
    by destruct (closed_forms_ext fs' self1 self split
                   (PyDict.keys (Task.langs2id self)) PyDict.empty
                   Hargs Hdict Hseed Hl2i) as (-> & _).
Qed.

Lemma reload_repeats_the_load_witness :
  let self := __init__ sample_args sample_dictionary in
  let self1 := final (load_dataset sample_fs "train" false self) in
  outcome (load_dataset sample_fs "train" false self) = inr tt
  /\ load_dataset sample_fs "train" true self1 =
       (inr tt, self1, trace (load_dataset sample_fs "train" false self)).
Proof.
  intros self self1.
  assert (outcome (load_dataset sample_fs "train" false self) = inr tt) as Hok.
  { vm_compute. reflexivity. }
  split; [exact Hok|].
  exact (proj1 (reload_repeats_the_load sample_fs self "train" false true Hok)).
Defined.

(** * Further properties *)

(** ** Splitting and trimming *)

Section SplitFacts.
Variable sep : ascii.
Implicit Types (s r w : string) (c : ascii).

Lemma split_no_sep r :
  sep ∉ list_ascii_of_string r -> PyStr.split sep r = [r].
Proof.
  induction r as [|c r IH]; simpl; intros Hsep; [reflexivity|].
  apply not_elem_of_cons in Hsep as [Hne Hsep].
  rewrite decide_False by congruence. by rewrite IH.
Qed.

Lemma split_app_sep r s :
  sep ∉ list_ascii_of_string r ->
  PyStr.split sep (r +:+ String sep s) = r :: PyStr.split sep s.
Proof.
  induction r as [|c r IH]; simpl; intros Hsep.
  - by rewrite decide_True.
  - apply not_elem_of_cons in Hsep as [Hne Hsep].
    rewrite decide_False by congruence. by rewrite IH.
Qed.

Lemma split_concat (raws : list string) :
  raws ≠ [] ->
  (forall r, r ∈ raws -> sep ∉ list_ascii_of_string r) ->
  PyStr.split sep (String.concat (String sep "") raws) = raws.
Proof.
  induction raws as [|r raws IH]; intros Hne Hsep; [done|].
  destruct raws as [|r' raws].
  - simpl. apply split_no_sep, Hsep. by left.
  - change (String.concat (String sep "") (r :: r' :: raws))
      with (r +:+ String sep (String.concat (String sep "") (r' :: raws))).
    rewrite split_app_sep by (apply Hsep; by left).
    rewrite IH; [reflexivity|done|].
    intros r0 Hr0. apply Hsep. by right.
Qed.

Lemma split_fields_no_sep s w :
  w ∈ PyStr.split sep s -> sep ∉ list_ascii_of_string w.
Proof.
  revert w. induction s as [|c s IH]; simpl; intros w Hw.
  - apply list_elem_of_singleton in Hw as ->. apply not_elem_of_nil.
  - destruct (decide (c = sep)) as [->|Hne].
    + apply elem_of_cons in Hw as [->|Hw]; [apply not_elem_of_nil|by apply IH].
    + destruct (PyStr.split sep s) as [|w0 ws] eqn:Hsplit.
      * by apply split_nonempty in Hsplit.
      * apply elem_of_cons in Hw as [->|Hw].
        -- simpl. apply not_elem_of_cons. split; [congruence|].
           apply IH. by left.
        -- apply IH. by right.
Qed.
End SplitFacts.

Section StripFacts.
Implicit Types (s : string) (c : ascii).

Lemma lstrip_chars s c :
  c ∈ list_ascii_of_string (PyStr.lstrip s) -> c ∈ list_ascii_of_string s.
Proof.
  induction s as [|c0 s IH]; simpl; [done|].
  destruct (PyStr.isspace c0); [|done]. intros H. right. by apply IH.
Qed.

Lemma rstrip_chars s c :
  c ∈ list_ascii_of_string (PyStr.rstrip s) -> c ∈ list_ascii_of_string s.
Proof.
  induction s as [|c0 s IH]; simpl; [done|].
  destruct (PyStr.rstrip s) as [|c1 r] eqn:Hr.
  - destruct (PyStr.isspace c0); simpl; [by intros ?%elem_of_nil|].
    intros [->|H]%elem_of_cons; [by left | by apply elem_of_nil in H].
  - simpl. intros [->|H]%elem_of_cons; [by left|]. right. by apply IH.
Qed.

Lemma rstrip_idem s : PyStr.rstrip (PyStr.rstrip s) = PyStr.rstrip s.
Proof.
  induction s as [|c s IH]; simpl; [reflexivity|].
  destruct (PyStr.rstrip s) as [|c1 r] eqn:Hr.
  - destruct (PyStr.isspace c) eqn:Hc; simpl; [reflexivity|]. by rewrite Hc.
  - change (PyStr.rstrip (String c (String c1 r)))
      with (match PyStr.rstrip (String c1 r) with
            | EmptyString =>
                if PyStr.isspace c then EmptyString else String c EmptyString
            | r0 => String c r0
            end).
    by rewrite IH.
Qed.

Lemma lstrip_length s :
  String.length (PyStr.lstrip s) <= String.length s.
Proof.
  induction s as [|c s IH]; simpl; [lia|].
  destruct (PyStr.isspace c); simpl; lia.
Qed.

(** A string that [lstrip] leaves alone is empty or begins with a
    character that is not white space, and [rstrip] keeps that. *)
Lemma lstrip_fixed_head c s :
  PyStr.lstrip (String c s) = String c s -> PyStr.isspace c = false.
Proof.
  simpl. destruct (PyStr.isspace c); [|done]. intros Heq.
  pose proof (lstrip_length s) as Hlen. rewrite Heq in Hlen.
  simpl in Hlen. lia.
Qed.

Lemma lstrip_idem s : PyStr.lstrip (PyStr.lstrip s) = PyStr.lstrip s.
Proof.
  induction s as [|c s IH]; simpl; [reflexivity|].
  destruct (PyStr.isspace c) eqn:Hc; [exact IH|]. simpl. by rewrite Hc.
Qed.

Lemma lstrip_rstrip_fixed s :
  PyStr.lstrip s = s -> PyStr.lstrip (PyStr.rstrip s) = PyStr.rstrip s.
Proof.
  destruct s as [|c s]; [done|]. intros Hc%lstrip_fixed_head.
  simpl. destruct (PyStr.rstrip s); rewrite ?Hc; simpl; by rewrite Hc.
Qed.

Lemma strip_lstrip s : PyStr.lstrip (PyStr.strip s) = PyStr.strip s.
Proof. apply lstrip_rstrip_fixed, lstrip_idem. Qed.

Lemma strip_rstrip s : PyStr.rstrip (PyStr.strip s) = PyStr.strip s.
Proof. apply rstrip_idem. Qed.

Lemma strip_idem s : PyStr.strip (PyStr.strip s) = PyStr.strip s.
Proof. unfold PyStr.strip at 1. by rewrite strip_lstrip, strip_rstrip. Qed.

Lemma strip_chars s c :
  c ∈ list_ascii_of_string (PyStr.strip s) -> c ∈ list_ascii_of_string s.
Proof. intros H. by apply lstrip_chars, rstrip_chars. Qed.
End StripFacts.

(** ** More on the language-to-id mapping *)

Lemma remove_dups_length_lt (l : list string) :
  length (remove_dups l) <= length l
  /\ (~ NoDup l -> length (remove_dups l) < length l).
Proof.
  induction l as [|x l [IHle IHlt]]; simpl.
  - split; [lia|]. intros H. destruct H. constructor.
  - case_decide as Hx; simpl.
    + split; lia.
    + split; [lia|]. intros Hnd.
      assert (~ NoDup l) as Hl by (intros ?; apply Hnd; by constructor).
      specialize (IHlt Hl). lia.
Qed.

Lemma lang_to_id_get languages lang id :
  PyDict.get (_lang_to_id languages) lang = Some id <->
  split_langs languages !! id = Some lang
  /\ forall j, id < j -> split_langs languages !! j ≠ Some lang.
Proof. rewrite lang_to_id_build. apply build_get. Qed.

Lemma lang_to_id_keys_elem languages lang :
  lang ∈ PyDict.keys (_lang_to_id languages) <->
  lang ∈ split_langs languages.
Proof. rewrite lang_to_id_build. apply build_keys_elem. Qed.

Lemma lang_to_id_keys_NoDup languages :
  NoDup (PyDict.keys (_lang_to_id languages)).
Proof. rewrite lang_to_id_build. apply build_keys_NoDup. Qed.

(** X1. Joining entries that contain no comma with commas and handing the
    result to [_lang_to_id] reads the same entries back, each one trimmed;
    when the trimmed entries are pairwise distinct the mapping numbers
    them in order. *)
Theorem lang_to_id_of_joined (raws : list string) :
  raws ≠ [] ->
  (forall r, r ∈ raws -> ","%char ∉ list_ascii_of_string r) ->
  split_langs (String.concat "," raws) = map PyStr.strip raws
  /\ (NoDup (map PyStr.strip raws) ->
      _lang_to_id (String.concat "," raws) =
      zip (map PyStr.strip raws) (seq 0 (length raws))).
Proof.
  intros Hne Hcomma.
  assert (split_langs (String.concat "," raws) = map PyStr.strip raws)
    as Hsplit.
  { unfold split_langs. by rewrite split_concat. }
  split; [exact Hsplit|]. intros Hnd.
  rewrite lang_to_id_build, Hsplit, build_distinct by exact Hnd.
  by rewrite length_map.
Qed.

Lemma lang_to_id_of_joined_witness :
  String.concat "," ["en"; " fr"; "de "] = "en, fr,de "
  /\ split_langs "en, fr,de " = ["en"; "fr"; "de"].
Proof.
  split; [reflexivity|].
  apply (lang_to_id_of_joined ["en"; " fr"; "de "]); [discriminate|].
  intros r Hr.
  assert (r = "en" \/ r = " fr" \/ r = "de ") as [->|[->| ->]].
  { repeat (apply elem_of_cons in Hr as [?|Hr]; [tauto|]). inversion Hr. }
  all: apply (bool_decide_unpack _); vm_compute; exact I.
Defined.

(** X2. Every language code of the mapping is trimmed (stripping it again
    on either side changes nothing) and contains no comma. *)
Theorem lang_to_id_keys_trimmed (languages lang : string) :
  lang ∈ PyDict.keys (_lang_to_id languages) ->
  PyStr.strip lang = lang
  /\ PyStr.lstrip lang = lang
  /\ PyStr.rstrip lang = lang
  /\ ","%char ∉ list_ascii_of_string lang.
Proof.
  intros Hin%lang_to_id_keys_elem. unfold split_langs in Hin.
  apply list_elem_of_fmap in Hin as (w & -> & Hw).
  split_and!.
  - apply strip_idem.
  - apply strip_lstrip.
  - apply strip_rstrip.
  - intros Hc%strip_chars. by apply (split_fields_no_sep _ _ _ Hw).
Qed.

Lemma lang_to_id_keys_trimmed_witness :
  "fr" ∈ PyDict.keys (_lang_to_id " en , fr ") /\ PyStr.strip "fr" = "fr".
Proof.
  assert ("fr" ∈ PyDict.keys (_lang_to_id " en , fr ")) as Hin.
  { apply (bool_decide_unpack _). vm_compute. exact I. }
  split; [exact Hin|].
  exact (proj1 (lang_to_id_keys_trimmed _ _ Hin)).
Defined.

(** X3. The ids of the mapping are below the number of comma-separated
    entries, and two different language codes never share an id. *)
Theorem lang_to_id_ids_distinct (languages lang1 lang2 : string)
    (id1 id2 : nat) :
  PyDict.get (_lang_to_id languages) lang1 = Some id1 ->
  PyDict.get (_lang_to_id languages) lang2 = Some id2 ->
  id1 < length (split_langs languages)
  /\ (lang1 ≠ lang2 -> id1 ≠ id2).
Proof.
  intros [H1 _]%lang_to_id_get [H2 _]%lang_to_id_get. split.
  - by eapply lookup_lt_Some.
  - intros Hne ->. congruence.
Qed.

Lemma lang_to_id_ids_distinct_witness :
  PyDict.get (_lang_to_id "fr,en,fr") "en" = Some 1
  /\ PyDict.get (_lang_to_id "fr,en,fr") "fr" = Some 2
  /\ 1 < 3.
Proof.
  assert (PyDict.get (_lang_to_id "fr,en,fr") "en" = Some 1) as H1
    by reflexivity.
  assert (PyDict.get (_lang_to_id "fr,en,fr") "fr" = Some 2) as H2
    by reflexivity.
  split; [exact H1|]. split; [exact H2|].
  exact (proj1 (lang_to_id_ids_distinct _ _ _ _ _ H1 H2)).
Defined.

(** X4. The mapping is never empty, and the last entry of the list always
    holds the highest id [n - 1] of the [n] entries: when an entry repeats
    there are fewer than [n] keys, so their ids are not [0 .. k-1]. *)
Theorem lang_to_id_last_entry (languages : string) :
  let langs := split_langs languages in
  let lang2id := _lang_to_id languages in
  (exists lang,
     last langs = Some lang
     /\ PyDict.get lang2id lang = Some (length langs - 1))
  /\ 0 < length lang2id <= length langs
  /\ (~ NoDup langs -> length lang2id < length langs).
Proof.
  intros langs lang2id.
  assert (length lang2id = length (remove_dups langs)) as Hlen.
  { transitivity (length (PyDict.keys lang2id));
      [unfold PyDict.keys; by rewrite length_map|].
    apply Permutation_length, NoDup_Permutation.
    - apply lang_to_id_keys_NoDup.
    - apply NoDup_remove_dups.
    - intros k. unfold lang2id, langs. rewrite lang_to_id_keys_elem.
      symmetry. apply elem_of_remove_dups. }
  pose proof (remove_dups_length_lt langs) as [Hle Hlt].
  pose proof (split_langs_nonempty languages) as Hne. fold langs in Hne.
  destruct (last langs) as [lang|] eqn:Hlast.
  2:{ apply last_None in Hlast. contradiction. }
  assert (PyDict.get lang2id lang = Some (length langs - 1)) as Hget.
  { apply lang_to_id_get. fold langs. split.
    - rewrite last_lookup in Hlast.
      by replace (length langs - 1) with (pred (length langs)) by lia.
    - intros j Hj. rewrite lookup_ge_None_2 by lia. discriminate. }
  split_and!.
  - by exists lang.
  - destruct lang2id; [discriminate|simpl; lia].
  - lia.
  - intros Hnd. specialize (Hlt Hnd). lia.
Qed.

Lemma elem_of_rev_iff (l : list string) x : x ∈ rev l <-> x ∈ l.
Proof. rewrite !list_elem_of_In. symmetry. apply in_rev. Qed.

(** X5. The keys of the mapping are the distinct trimmed entries in the
    order of their first occurrence in the list. *)
Theorem lang_to_id_keys_order (languages : string) :
  PyDict.keys (_lang_to_id languages) =
  rev (remove_dups (rev (split_langs languages))).
Proof.
  rewrite lang_to_id_build.
  induction (split_langs languages) as [|x langs IH] using rev_ind;
    [reflexivity|].
  rewrite build_snoc, keys_set, IH, rev_app_distr. simpl.
  destruct (decide_rel elem_of x (rev langs)) as [Hin|Hout].
  - rewrite decide_True; [reflexivity|].
    by apply elem_of_rev_iff, elem_of_remove_dups.
  - rewrite decide_False; [reflexivity|].
    intros Hin. apply Hout.
    apply elem_of_remove_dups. by apply elem_of_rev_iff.
Qed.

(** ** The task object after a load *)

Section LoadState.
Implicit Types (self : Task.t) (split lang : string)
  (d : gmap string MultiCorpusSampledDataset.t).

Lemma set_datasets_same self :
  Task.set_datasets self (Task.datasets self) = self.
Proof. by destruct self. Qed.

Lemma set_datasets_twice self d d' :
  Task.set_datasets (Task.set_datasets self d) d' = Task.set_datasets self d'.
Proof. reflexivity. Qed.

Lemma after_first_key_world_size self keys :
  Task.distributed_world_size (after_first_key self keys) =
  Task.distributed_world_size self.
Proof.
  destruct keys; [done|]. unfold after_first_key, claim_default_key.
  by destruct (Task.default_key self).
Qed.

(** The task object a load leaves, whatever its outcome. *)
Lemma load_dataset_final fs split combine self :
  final (load_dataset fs split combine self) =
  Task.set_datasets (after_first_key self (PyDict.keys (Task.langs2id self)))
    (registry_after fs self split (Task.datasets self)).
Proof.
  rewrite load_dataset_run. cbv zeta. unfold registry_after.
  pose proof (after_first_key_frame self (PyDict.keys (Task.langs2id self)))
    as (_ & Hd & _).
  destruct (first_missing fs self split (PyDict.keys (Task.langs2id self)));
    unfold final; cbn [fst snd]; rewrite <- Hd.
  - by rewrite set_datasets_same.
  - reflexivity.
Qed.

(** A load on a task that an earlier load has left, with any registry. *)
Lemma load_dataset_final_later fs split combine self d :
  let keys := PyDict.keys (Task.langs2id self) in
  final (load_dataset fs split combine
           (Task.set_datasets (after_first_key self keys) d)) =
  Task.set_datasets (after_first_key self keys)
    (registry_after fs self split d).
Proof.
  intros keys.
  set (self1 := Task.set_datasets (after_first_key self keys) d).
  pose proof (after_first_key_frame self keys)
    as (Hargs & _ & Hdict & Hseed & Hl2i).
  assert (Task.langs2id self1 = Task.langs2id self) as Hl2i1 by exact Hl2i.
  rewrite load_dataset_final, Hl2i1. fold keys.
  assert (after_first_key self1 keys = self1) as ->.
  { subst self1.
    by rewrite after_first_key_set_datasets, after_first_key_idem. }
  subst self1. rewrite set_datasets_twice. f_equal.
  unfold registry_after. rewrite Hl2i1. fold keys.
  destruct (closed_forms_ext fs
              (Task.set_datasets (after_first_key self keys) d) self split
              keys PyDict.empty Hargs Hdict Hseed Hl2i) as (-> & _ & ->).
  by rewrite after_first_key_set_datasets, after_first_key_idem.
Qed.

Lemma load_dataset_outcome_later fs split combine self d :
  outcome (load_dataset fs split combine
             (Task.set_datasets
                (after_first_key self (PyDict.keys (Task.langs2id self))) d)) =
  outcome (load_dataset fs split combine self).
Proof.
  pose proof (after_first_key_frame self (PyDict.keys (Task.langs2id self)))
    as (Hargs & _ & Hdict & Hseed & Hl2i).
  rewrite !load_dataset_outcome.
  cbn [Task.langs2id Task.set_datasets Task.args]. rewrite Hl2i, Hargs.
  by destruct (closed_forms_ext fs
                 (Task.set_datasets
                    (after_first_key self (PyDict.keys (Task.langs2id self))) d)
                 self split (PyDict.keys (Task.langs2id self)) PyDict.empty
                 Hargs Hdict Hseed Hl2i) as (-> & _).
Qed.

Lemma outcome_ok_iff fs split combine self :
  outcome (load_dataset fs split combine self) = inr tt <->
  first_missing fs self split (PyDict.keys (Task.langs2id self)) = None.
Proof.
  rewrite load_dataset_outcome.
  by destruct (first_missing fs self split (PyDict.keys (Task.langs2id self))).
Qed.

Lemma registry_after_lookup fs self split d split' :
  registry_after fs self split d !! split' =
  if decide (split' = split
             /\ first_missing fs self split
                  (PyDict.keys (Task.langs2id self)) = None)
  then Some (MultiCorpusSampledDataset.mk
               (dataset_map_for self split (PyDict.keys (Task.langs2id self))
                  PyDict.empty)
               (Task.default_key
                  (after_first_key self (PyDict.keys (Task.langs2id self)))))
  else d !! split'.
Proof.
  unfold registry_after.
  destruct (first_missing fs self split (PyDict.keys (Task.langs2id self))).
  - rewrite decide_False; [done|]. by intros [_ ?].
  - rewrite lookup_insert. case_decide as Heq.
    + subst. by rewrite decide_True.
    + rewrite decide_False; [done|]. intros [-> _]. done.
Qed.

(** Series of loads, from a task that an earlier load has left. *)
Lemma run_loads_later self reqs : forall d,
  let keys := PyDict.keys (Task.langs2id self) in
  run_loads (Task.set_datasets (after_first_key self keys) d) reqs =
  Task.set_datasets (after_first_key self keys)
    (registry_after_all self reqs d).
Proof.
  induction reqs as [|[[fs split] combine] reqs IH]; intros d keys; [done|].
  rewrite run_loads_cons. subst keys. rewrite load_dataset_final_later.
  apply IH.
Qed.
End LoadState.

(** ** Errors and events of a load *)

Lemma first_missing_position fs self split keys lang :
  first_missing fs self split keys = Some lang ->
  exists i,
    keys !! i = Some lang
    /\ shard_missing fs self split lang = true
    /\ (forall j l, j < i -> keys !! j = Some l ->
          shard_missing fs self split l = false)
    /\ probed fs self split keys = take (S i) keys.
Proof.
  unfold first_missing.
  induction keys as [|k keys IH]; simpl; [discriminate|].
  destruct (shard_missing fs self split k) eqn:Hk.
  - intros [= <-]. exists 0. split_and!; [done|done| |by rewrite take_0].
    intros j l Hj. lia.
  - intros (i & Hi & Hm & Hbefore & Hprobed)%IH. exists (S i).
    split_and!; [done|done| |by rewrite Hprobed].
    intros [|j] l Hj; simpl; [by intros [= <-]|].
    apply Hbefore. lia.
Qed.

Lemma probed_all fs self split keys :
  first_missing fs self split keys = None -> probed fs self split keys = keys.
Proof.
  unfold first_missing. induction keys as [|k keys IH]; simpl; [done|].
  destruct (shard_missing fs self split k); [discriminate|].
  intros H. by rewrite IH.
Qed.

Lemma probed_sublist fs self split keys lang :
  lang ∈ probed fs self split keys -> lang ∈ keys.
Proof.
  induction keys as [|k keys IH]; simpl; [done|].
  intros [->|Hin]%elem_of_cons; [by left|]. right.
  destruct (shard_missing fs self split k); [inversion Hin | by apply IH].
Qed.

Lemma probed_length fs self split keys :
  length (probed fs self split keys) <= length keys.
Proof.
  induction keys as [|k keys IH]; simpl; [lia|].
  destruct (shard_missing fs self split k); simpl; lia.
Qed.

(** X6. A load raises nothing but the dataset-not-found error, and raises
    it for the first language, in the mapping's order, whose shard of the
    configured format is missing: the shards of the languages before it
    exist, the file system is tested for those languages and for it and
    for none after it, and no log line is printed. *)
Theorem load_error_is_first_missing
    (fs : FileSystem) (self : Task.t) (split : string) (combine : bool)
    (e : Exn) :
  outcome (load_dataset fs split combine self) = inl e ->
  let a := Task.args self in
  let keys := PyDict.keys (Task.langs2id self) in
  let path lang := shard_path (Args.data a) split lang in
  exists i lang,
    keys !! i = Some lang
    /\ applicable_exists fs a (path lang) = false
    /\ (forall j l, j < i -> keys !! j = Some l ->
          applicable_exists fs a (path l) = true)
    /\ e = FileNotFoundError
             (not_found_message (language_split split lang) (Args.data a))
    /\ trace (load_dataset fs split combine self) =
       map (fun l => probe_event a (path l)) (take (S i) keys).
Proof.
  intros He a keys path. subst a keys path.
  rewrite load_dataset_trace, He, app_nil_r.
  rewrite load_dataset_outcome in He.
  destruct (first_missing fs self split (PyDict.keys (Task.langs2id self)))
    as [lang|] eqn:Hfm; [|discriminate].
  injection He as <-.
  apply first_missing_position in Hfm as (i & Hi & Hm & Hbefore & Hprobed).
  exists i, lang. split_and!.
  - exact Hi.
  - by apply negb_true_iff in Hm.
  - intros j l Hj Hl. specialize (Hbefore j l Hj Hl).
    by apply negb_false_iff in Hbefore.
  - reflexivity.
  - unfold probes. by rewrite Hprobed.
Qed.

Lemma load_error_is_first_missing_witness :
  let self := __init__ sample_args sample_dictionary in
  outcome (load_dataset sample_fs "valid" false self) =
    inl (FileNotFoundError "Dataset not found: valid.fr (data)")
  /\ exists i lang,
       PyDict.keys (Task.langs2id self) !! i = Some lang
       /\ indexed_exists sample_fs (shard_path "data" "valid" lang) = false
       /\ FileNotFoundError "Dataset not found: valid.fr (data)" =
          FileNotFoundError
            (not_found_message (language_split "valid" lang) "data").
Proof.
  intros self.
  assert (outcome (load_dataset sample_fs "valid" false self) =
          inl (FileNotFoundError "Dataset not found: valid.fr (data)")) as He.
  { vm_compute. reflexivity. }
  split; [exact He|].
  destruct (load_error_is_first_missing sample_fs self "valid" false _ He)
    as (i & lang & Hi & Hmiss & _ & Hmsg & _).
  exists i, lang. split; [exact Hi|]. split; [exact Hmiss | exact Hmsg].
Defined.

(** X7. A load that returns has tested the file system exactly once per
    language, in the mapping's order, and then printed one log line, for
    the merged dataset it registered. *)
Theorem load_success_events
    (fs : FileSystem) (self : Task.t) (split : string) (combine : bool) :
  outcome (load_dataset fs split combine self) = inr tt ->
  exists merged,
    Task.datasets (final (load_dataset fs split combine self)) !! split
    = Some merged
    /\ trace (load_dataset fs split combine self) =
       map (fun lang =>
              probe_event (Task.args self)
                (shard_path (Args.data (Task.args self)) split lang))
           (PyDict.keys (Task.langs2id self))
       ++ [PrintExamples (Args.data (Task.args self)) split merged].
Proof.
  intros Hok. rewrite load_dataset_trace, load_dataset_registry, Hok.
  apply outcome_ok_iff in Hok.
  eexists. split; [apply lookup_insert_eq|].
  unfold probes. by rewrite probed_all.
Qed.

Lemma load_success_events_witness :
  let self := __init__ sample_args sample_dictionary in
  outcome (load_dataset sample_fs "train" false self) = inr tt
  /\ take 2 (trace (load_dataset sample_fs "train" false self)) =
     [ProbeIndexed "data/train.en"; ProbeIndexed "data/train.fr"]
  /\ length (trace (load_dataset sample_fs "train" false self)) = 3.
Proof.
  intros self.
  assert (outcome (load_dataset sample_fs "train" false self) = inr tt) as Hok.
  { vm_compute. reflexivity. }
  split; [exact Hok|].
  destruct (load_success_events sample_fs self "train" false Hok)
    as (merged & _ & Htr).
  rewrite Htr. split; reflexivity.
Defined.

(** X8. Whatever its outcome, a load tests the file system only for the
    format that is configured and only at the shard paths of the
    mapping's languages, at most once per language; the only other event
    is the log line. *)
Theorem load_events_are_shard_probes
    (fs : FileSystem) (self : Task.t) (split : string) (combine : bool) :
  let a := Task.args self in
  let keys := PyDict.keys (Task.langs2id self) in
  (forall ev, ev ∈ trace (load_dataset fs split combine self) ->
     (exists lang,
        lang ∈ keys
        /\ ev = (if Args.raw_text a then ProbeRawText else ProbeIndexed)
                  (shard_path (Args.data a) split lang))
     \/ (exists merged, ev = PrintExamples (Args.data a) split merged))
  /\ length (trace (load_dataset fs split combine self)) <= length keys + 1.
Proof.
  intros a keys. subst a keys. rewrite load_dataset_trace. split.
  - intros ev [Hev|Hev]%elem_of_app.
    + left. unfold probes in Hev.
      apply list_elem_of_fmap in Hev as (lang & -> & Hlang).
      exists lang. split; [by eapply probed_sublist|].
      unfold probe_event. by destruct (Args.raw_text (Task.args self)).
    + right. destruct (outcome (load_dataset fs split combine self));
        [inversion Hev|].
      apply list_elem_of_singleton in Hev as ->. eauto.
  - rewrite length_app. unfold probes. rewrite length_map.
    pose proof (probed_length fs self split (PyDict.keys (Task.langs2id self))).
    destruct (outcome (load_dataset fs split combine self)); simpl; lia.
Qed.

(** X9. A load of one split leaves the registry entry of every other split
    as it was, whether it returns or raises. *)
Theorem load_leaves_other_splits
    (fs : FileSystem) (self : Task.t) (split split' : string)
    (combine : bool) :
  split' ≠ split ->
  Task.datasets (final (load_dataset fs split combine self)) !! split' =
  Task.datasets self !! split'.
Proof.
  intros Hne. rewrite load_dataset_final. cbn [Task.datasets Task.set_datasets].
  rewrite registry_after_lookup, decide_False; [done|]. by intros [? _].
Qed.

Lemma load_leaves_other_splits_witness :
  let self := final (load_dataset sample_fs "train" false
                       (__init__ sample_args sample_dictionary)) in
  "train" ≠ "test"
  /\ Task.datasets (final (load_dataset sample_fs_later "test" false self))
       !! "train" = Task.datasets self !! "train".
Proof.
  intros self.
  assert ("train" ≠ "test") as Hne by discriminate.
  split; [exact Hne|].
  exact (load_leaves_other_splits sample_fs_later self "test" "train" false
           Hne).
Defined.

(** ** How loads compose *)

Lemma registry_after_commute fs1 fs2 self split1 split2
    (d : gmap string MultiCorpusSampledDataset.t) :
  split1 ≠ split2 ->
  registry_after fs2 self split2 (registry_after fs1 self split1 d) =
  registry_after fs1 self split1 (registry_after fs2 self split2 d).
Proof.
  intros Hne. unfold registry_after.
  destruct (first_missing fs1 self split1 (PyDict.keys (Task.langs2id self))),
    (first_missing fs2 self split2 (PyDict.keys (Task.langs2id self)));
    try reflexivity.
  by apply insert_insert_ne.
Qed.

Lemma registry_after_idem fs self split
    (d : gmap string MultiCorpusSampledDataset.t) :
  registry_after fs self split (registry_after fs self split d) =
  registry_after fs self split d.
Proof.
  unfold registry_after.
  destruct (first_missing fs self split (PyDict.keys (Task.langs2id self)));
    [reflexivity|].
  apply insert_insert_eq.
Qed.

(** X10. Loads of two different splits, each against its own file system
    and whether or not they raise, leave the same task object in either
    order. *)
Theorem loads_commute
    (fs1 fs2 : FileSystem) (self : Task.t) (split1 split2 : string)
    (combine1 combine2 : bool) :
  split1 ≠ split2 ->
  final (load_dataset fs2 split2 combine2
           (final (load_dataset fs1 split1 combine1 self))) =
  final (load_dataset fs1 split1 combine1
           (final (load_dataset fs2 split2 combine2 self))).
Proof.
  intros Hne.
  rewrite (load_dataset_final fs1 split1 combine1 self),
    (load_dataset_final fs2 split2 combine2 self),
    !load_dataset_final_later.
  f_equal. by apply registry_after_commute.
Qed.

Lemma loads_commute_witness :
  let self := __init__ sample_args sample_dictionary in
  "train" ≠ "valid"
  /\ final (load_dataset sample_fs "valid" false
              (final (load_dataset sample_fs "train" false self))) =
     final (load_dataset sample_fs "train" false
              (final (load_dataset sample_fs "valid" false self))).
Proof.
  intros self.
  assert ("train" ≠ "valid") as Hne by discriminate.
  split; [exact Hne|].
  exact (loads_commute sample_fs sample_fs self "train" "valid" false false
           Hne).
Defined.

(** X11. Repeating a load against the same file system, whether it
    returned or raised, gives the same outcome and leaves the task object
    as the first load left it. *)
Theorem load_twice_is_load_once
    (fs : FileSystem) (self : Task.t) (split : string)
    (combine combine' : bool) :
  let self1 := final (load_dataset fs split combine self) in
  outcome (load_dataset fs split combine' self1) =
    outcome (load_dataset fs split combine self)
  /\ final (load_dataset fs split combine' self1) = self1.
Proof.
  intros self1. subst self1. rewrite load_dataset_final. split.
  - by rewrite load_dataset_outcome_later.
  - by rewrite load_dataset_final_later, registry_after_idem.
Qed.

Lemma registry_after_all_dom self reqs split :
  forall d : gmap string MultiCorpusSampledDataset.t,
  is_Some (registry_after_all self reqs d !! split) <->
  is_Some (d !! split)
  \/ exists fs combine,
       (fs, split, combine) ∈ reqs
       /\ first_missing fs self split (PyDict.keys (Task.langs2id self)) = None.
Proof.
  induction reqs as [|[[fs0 split0] combine0] reqs IH]; intros d.
  - simpl. split; [by left|]. intros [?|(? & ? & Hin & _)]; [done|].
    inversion Hin.
  - change (registry_after_all self ((fs0, split0, combine0) :: reqs) d)
      with (registry_after_all self reqs (registry_after fs0 self split0 d)).
    rewrite IH, registry_after_lookup. split.
    + intros [Hd|(fs & c & Hin & Hok)].
      * case_decide as Hdec; [|by left].
        destruct Hdec as [-> Hok]. right. exists fs0, combine0.
        split; [by left | exact Hok].
      * right. exists fs, c. split; [by right | exact Hok].
    + intros [Hd|(fs & c & Hin & Hok)].
      * left. case_decide; [eauto | exact Hd].
      * apply elem_of_cons in Hin as [[= -> -> ->]|Hin].
        -- left. rewrite decide_True by done. eauto.
        -- right. eauto.
Qed.

(** X12. After any series of loads, a split is in the registry exactly
    when it was there before or one of the loads of that split returned;
    what decides whether a load returns is its own file system, not the
    loads made before it. *)
Theorem registered_iff_loaded
    (self : Task.t) (reqs : list Request) (split : string) :
  is_Some (Task.datasets (run_loads self reqs) !! split) <->
  is_Some (Task.datasets self !! split)
  \/ exists fs combine,
       (fs, split, combine) ∈ reqs
       /\ outcome (load_dataset fs split combine self) = inr tt.
Proof.
  assert (forall fs combine,
            outcome (load_dataset fs split combine self) = inr tt <->
            first_missing fs self split (PyDict.keys (Task.langs2id self))
            = None) as Hok by (intros; apply outcome_ok_iff).
  destruct reqs as [|[[fs0 split0] combine0] reqs].
  - simpl. split; [by left|]. intros [?|(? & ? & Hin & _)]; [done|].
    inversion Hin.
  - rewrite run_loads_cons, load_dataset_final, run_loads_later.
    cbn [Task.datasets Task.set_datasets].
    change (registry_after_all self reqs
              (registry_after fs0 self split0 (Task.datasets self)))
      with (registry_after_all self ((fs0, split0, combine0) :: reqs)
              (Task.datasets self)).
    rewrite registry_after_all_dom.
    split; (intros [Hd|(fs & c & Hin & H)]; [by left|]);
      right; exists fs, c; (split; [exact Hin|]); by apply (Hok fs c).
Qed.

(** ** What loads never touch *)

(** X13. No series of loads changes the configuration, the dictionary,
    the seed, the world size or the language mapping of a task: the
    target dictionary stays the one given to the constructor and the
    mapping the one built from the language string. *)
Theorem loads_keep_configuration
    (args : Args.t) (dictionary : MaskedLMDictionary.t) (self : Task.t)
    (reqs : list Request) :
  (Task.args (run_loads self reqs) = Task.args self
   /\ Task.dictionary (run_loads self reqs) = Task.dictionary self
   /\ Task.seed (run_loads self reqs) = Task.seed self
   /\ Task.distributed_world_size (run_loads self reqs) =
      Task.distributed_world_size self
   /\ Task.langs2id (run_loads self reqs) = Task.langs2id self)
  /\ target_dictionary (run_loads (__init__ args dictionary) reqs) = dictionary
  /\ Task.langs2id (run_loads (__init__ args dictionary) reqs) =
     _lang_to_id (Args.monolingual_langs args).
Proof.
  assert (forall self0,
            Task.args (run_loads self0 reqs) = Task.args self0
            /\ Task.dictionary (run_loads self0 reqs) = Task.dictionary self0
            /\ Task.seed (run_loads self0 reqs) = Task.seed self0
            /\ Task.distributed_world_size (run_loads self0 reqs) =
               Task.distributed_world_size self0
            /\ Task.langs2id (run_loads self0 reqs) = Task.langs2id self0)
    as Hframe.
  { intros self0. destruct reqs as [|[[fs split] combine] reqs]; [done|].
    rewrite run_loads_cons, load_dataset_final, run_loads_later.
    cbn [Task.args Task.dictionary Task.seed Task.distributed_world_size
         Task.langs2id Task.set_datasets].
    pose proof (after_first_key_frame self0
                  (PyDict.keys (Task.langs2id self0)))
      as (? & _ & ? & ? & ?).
    by rewrite after_first_key_world_size. }
  split; [apply Hframe|].
  destruct (Hframe (__init__ args dictionary)) as (_ & Hdict & _ & _ & Hl2i).
  split; [exact Hdict | exact Hl2i].
Qed.

(** ** The registered datasets *)

(** X14. Every per-language dataset a successful load registers is built
    on the task's dictionary and seed in single-segment mode: the
    end-of-sequence index is both classification and separator token,
    padding and mask indices are the dictionary's, [has_pairs] is false,
    [shuffle] is the configured flag (false when absent), and the sizes
    handed to each wrapper are those of the object it wraps. *)
Theorem registered_dataset_configuration
    (fs : FileSystem) (self : Task.t) (split : string) (combine : bool) :
  outcome (load_dataset fs split combine self) = inr tt ->
  exists merged,
    Task.datasets (final (load_dataset fs split combine self)) !! split
    = Some merged
    /\ forall lang mlm,
         PyDict.get (MultiCorpusSampledDataset.datasets merged) lang
         = Some mlm ->
         let dictionary := Task.dictionary self in
         MaskedLMDataset.vocab mlm = dictionary
         /\ MaskedLMDataset.pad_idx mlm = MaskedLMDictionary.pad dictionary
         /\ MaskedLMDataset.mask_idx mlm = MaskedLMDictionary.mask dictionary
         /\ MaskedLMDataset.classif_token_idx mlm =
            MaskedLMDictionary.eos dictionary
         /\ MaskedLMDataset.sep_token_idx mlm =
            MaskedLMDictionary.eos dictionary
         /\ MaskedLMDataset.has_pairs mlm = false
         /\ MaskedLMDataset.shuffle mlm =
            default false (Args.shuffle (Task.args self))
         /\ MaskedLMDataset.seed mlm = Task.seed self
         /\ MaskedLMDataset.sizes mlm = sizes_of (MaskedLMDataset.dataset mlm)
         /\ TokenBlockDataset.sizes (MaskedLMDataset.dataset mlm) =
            sizes_of (TokenBlockDataset.dataset (MaskedLMDataset.dataset mlm)).
Proof.
  intros Hok. apply load_dataset_stores in Hok as (merged & Hreg & _ & Hget).
  exists merged. split; [exact Hreg|].
  intros lang mlm. rewrite Hget.
  destruct (PyDict.get (Task.langs2id self) lang); [|discriminate].
  intros [= <-]. cbv zeta. split_and!; reflexivity.
Qed.

Lemma registered_dataset_configuration_witness :
  let self := __init__ sample_args sample_dictionary in
  outcome (load_dataset sample_fs "train" false self) = inr tt
  /\ exists merged,
       Task.datasets (final (load_dataset sample_fs "train" false self))
         !! "train" = Some merged
       /\ forall lang mlm,
            PyDict.get (MultiCorpusSampledDataset.datasets merged) lang
            = Some mlm ->
            MaskedLMDataset.vocab mlm = sample_dictionary
            /\ MaskedLMDataset.has_pairs mlm = false.
Proof.
  intros self.
  assert (outcome (load_dataset sample_fs "train" false self) = inr tt) as Hok.
  { vm_compute. reflexivity. }
  split; [exact Hok|].
  destruct (registered_dataset_configuration sample_fs self "train" false Hok)
    as (merged & Hreg & Hcfg).
  exists merged. split; [exact Hreg|].
  intros lang mlm Hget.
  destruct (Hcfg lang mlm Hget) as (Hv & _ & _ & _ & _ & Hp & _).
  split; [exact Hv | exact Hp].
Defined.

Lemma string_app_assoc (a b c : string) : (a +:+ b) +:+ c = a +:+ (b +:+ c).
Proof.
  induction a as [|x a IH]; [reflexivity|].
  change (String x ((a +:+ b) +:+ c) = String x (a +:+ (b +:+ c))).
  by rewrite IH.
Qed.

(** The shard path is a prefix fixed by directory and split, followed by
    the language code. *)
Lemma shard_path_prefix data split :
  exists prefix, forall lang, shard_path data split lang = prefix +:+ lang.
Proof.
  unfold shard_path, os_path_join, language_split.
  assert (forall lang,
            PyStr.startswith (split +:+ "." +:+ lang) "/" =
            PyStr.startswith (split +:+ ".") "/") as Hstart.
  { intros lang. by destruct split. }
  destruct (PyStr.startswith (split +:+ ".") "/") eqn:Hs.
  - exists (split +:+ "."). intros lang. rewrite Hstart.
    by rewrite string_app_assoc.
  - destruct (bool_decide (data = "") || PyStr.endswith data "/") eqn:Hd.
    + exists (data +:+ split +:+ "."). intros lang. rewrite Hstart.
      by rewrite !string_app_assoc.
    + exists (data +:+ "/" +:+ split +:+ "."). intros lang. rewrite Hstart.
      by rewrite !string_app_assoc.
Qed.

(** X15. In one directory and for one split, two different languages
    never have the same shard path, whatever the directory and split
    strings are. *)
Theorem shard_paths_distinct (data split lang1 lang2 : string) :
  lang1 ≠ lang2 ->
  shard_path data split lang1 ≠ shard_path data split lang2.
Proof.
  intros Hne Heq. destruct (shard_path_prefix data split) as [prefix Hp].
  rewrite !Hp in Heq. by apply String.app_inj in Heq.
Qed.

Lemma shard_paths_distinct_witness :
  "en" ≠ "fr"
  /\ shard_path "data/" "train" "en" ≠ shard_path "data/" "train" "fr".
Proof.
  assert ("en" ≠ "fr") as Hne by discriminate.
  split; [exact Hne|].
  exact (shard_paths_distinct "data/" "train" "en" "fr" Hne).
Defined.

Lemma dataset_map_for_keys self split keys :
  NoDup keys ->
  PyDict.keys (dataset_map_for self split keys PyDict.empty) = keys.
Proof.
  intros Hnd. unfold dataset_map_for.
  by rewrite (keys_fold_set
                (fun lang =>
                   lang_dataset self split lang (segment_id_of self lang))).
Qed.

(** The default key of a task built by the constructor is unset or the
    first language, through any series of loads. *)
Lemma run_loads_init_default_key args dictionary reqs :
  let self := run_loads (__init__ args dictionary) reqs in
  Task.langs2id self = _lang_to_id (Args.monolingual_langs args)
  /\ (Task.default_key self = None
      \/ Task.default_key self = head (PyDict.keys (Task.langs2id self))).
Proof.
  intros self. subst self.
  assert (Task.langs2id (run_loads (__init__ args dictionary) reqs) =
          _lang_to_id (Args.monolingual_langs args)) as Hl2i
    by apply run_loads_langs2id.
  split; [exact Hl2i|]. rewrite Hl2i.
  destruct (lang_to_id_first (Args.monolingual_langs args))
    as (lang & Hhead & _).
  destruct reqs as [|req reqs]; [by left|]. right.
  destruct (run_loads_first_language lang (req :: reqs)
              (__init__ args dictionary)) as [_ Hkey];
    [exact Hhead | by left | |].
  - intros split merged. unfold __init__, FairseqTask__init__. simpl.
    by rewrite lookup_empty.
  - rewrite Hhead. by apply Hkey.
Qed.

(** X16. In a merged dataset registered on a task built by the
    constructor, after any earlier loads, two different languages never
    carry the same segment id. *)
Theorem segment_ids_distinct
    (fs : FileSystem) (args : Args.t) (dictionary : MaskedLMDictionary.t)
    (reqs : list Request) (split : string) (combine : bool) :
  let self := run_loads (__init__ args dictionary) reqs in
  outcome (load_dataset fs split combine self) = inr tt ->
  exists merged,
    Task.datasets (final (load_dataset fs split combine self)) !! split
    = Some merged
    /\ forall lang1 lang2 mlm1 mlm2,
         PyDict.get (MultiCorpusSampledDataset.datasets merged) lang1
         = Some mlm1 ->
         PyDict.get (MultiCorpusSampledDataset.datasets merged) lang2
         = Some mlm2 ->
         MaskedLMDataset.segment_id mlm1 = MaskedLMDataset.segment_id mlm2 ->
         lang1 = lang2.
Proof.
  intros self Hok.
  destruct (run_loads_init_default_key args dictionary reqs) as [Hl2i _].
  fold self in Hl2i.
  apply load_dataset_stores in Hok as (merged & Hreg & _ & Hget).
  exists merged. split; [exact Hreg|].
  intros lang1 lang2 mlm1 mlm2. rewrite !Hget, Hl2i.
  destruct (PyDict.get _ lang1) as [id1|] eqn:H1; [|discriminate].
  destruct (PyDict.get _ lang2) as [id2|] eqn:H2; [|discriminate].
  intros [= <-] [= <-]. simpl. intros ->.
  apply lang_to_id_get in H1 as [H1 _]. apply lang_to_id_get in H2 as [H2 _].
  congruence.
Qed.

Lemma segment_ids_distinct_witness :
  let self := run_loads (__init__ sample_args sample_dictionary)
                [(sample_fs, "valid", false)] in
  outcome (load_dataset sample_fs "train" false self) = inr tt
  /\ exists merged,
       Task.datasets (final (load_dataset sample_fs "train" false self))
         !! "train" = Some merged
       /\ forall lang1 lang2 mlm1 mlm2,
            PyDict.get (MultiCorpusSampledDataset.datasets merged) lang1
            = Some mlm1 ->
            PyDict.get (MultiCorpusSampledDataset.datasets merged) lang2
            = Some mlm2 ->
            MaskedLMDataset.segment_id mlm1 = MaskedLMDataset.segment_id mlm2 ->
            lang1 = lang2.
Proof.
  intros self.
  assert (outcome (load_dataset sample_fs "train" false self) = inr tt) as Hok.
  { vm_compute. reflexivity. }
  split; [exact Hok|].
  exact (segment_ids_distinct sample_fs sample_args sample_dictionary
           [(sample_fs, "valid", false)] "train" false Hok).
Defined.

(** X17. In a merged dataset registered on a task built by the
    constructor, after any earlier loads, the languages are those of the
    mapping in the mapping's order, and the default key is the first of
    them: it always names one of the merged datasets. *)
Theorem merged_keys_and_default_key
    (fs : FileSystem) (args : Args.t) (dictionary : MaskedLMDictionary.t)
    (reqs : list Request) (split : string) (combine : bool) :
  let self := run_loads (__init__ args dictionary) reqs in
  outcome (load_dataset fs split combine self) = inr tt ->
  exists merged lang,
    Task.datasets (final (load_dataset fs split combine self)) !! split
    = Some merged
    /\ PyDict.keys (MultiCorpusSampledDataset.datasets merged) =
       PyDict.keys (_lang_to_id (Args.monolingual_langs args))
    /\ MultiCorpusSampledDataset.default_key merged = Some lang
    /\ head (PyDict.keys (MultiCorpusSampledDataset.datasets merged))
       = Some lang
    /\ is_Some (PyDict.get (MultiCorpusSampledDataset.datasets merged) lang).
Proof.
  intros self Hok.
  destruct (run_loads_init_default_key args dictionary reqs) as [Hl2i Hkey].
  fold self in Hl2i, Hkey.
  destruct (lang_to_id_first (Args.monolingual_langs args))
    as (lang & Hhead & _).
  assert (Task.default_key (final (load_dataset fs split combine self))
          = Some lang) as Hdk.
  { rewrite load_dataset_default_key, Hl2i.
    rewrite Hl2i, Hhead in Hkey. by destruct Hkey as [-> | ->]. }
  assert (PyDict.keys
            (dataset_map_for self split (PyDict.keys (Task.langs2id self))
               PyDict.empty) =
          PyDict.keys (_lang_to_id (Args.monolingual_langs args))) as Hkeys.
  { rewrite dataset_map_for_keys; rewrite Hl2i; [done|].
    apply lang_to_id_keys_NoDup. }
  eexists _, lang. rewrite load_dataset_registry, Hok, Hdk.
  split; [apply lookup_insert_eq|].
  cbn [MultiCorpusSampledDataset.datasets
       MultiCorpusSampledDataset.default_key].
  split_and!; [exact Hkeys | reflexivity | by rewrite Hkeys |].
  apply get_is_Some. rewrite Hkeys.
  destruct (PyDict.keys (_lang_to_id (Args.monolingual_langs args)));
    [discriminate|]. injection Hhead as ->. by left.
Qed.

Lemma merged_keys_and_default_key_witness :
  let self := run_loads (__init__ sample_args sample_dictionary)
                [(sample_fs, "valid", false)] in
  outcome (load_dataset sample_fs "train" false self) = inr tt
  /\ exists merged lang,
       Task.datasets (final (load_dataset sample_fs "train" false self))
         !! "train" = Some merged
       /\ PyDict.keys (MultiCorpusSampledDataset.datasets merged) = ["en"; "fr"]
       /\ MultiCorpusSampledDataset.default_key merged = Some lang
       /\ head (PyDict.keys (MultiCorpusSampledDataset.datasets merged))
          = Some lang.
Proof.
  intros self.
  assert (outcome (load_dataset sample_fs "train" false self) = inr tt) as Hok.
  { vm_compute. reflexivity. }
  split; [exact Hok|].
  destruct (merged_keys_and_default_key sample_fs sample_args sample_dictionary
              [(sample_fs, "valid", false)] "train" false Hok)
    as (merged & lang & Hreg & Hkeys & Hdk & Hhead & _).
  exists merged, lang.
  split_and!; [exact Hreg | exact Hkeys | exact Hdk | exact Hhead].
Defined.

Lemma registry_after_all_lookup self reqs split merged :
  forall d : gmap string MultiCorpusSampledDataset.t,
  registry_after_all self reqs d !! split = Some merged ->
  d !! split = Some merged
  \/ exists fs combine,
       (fs, split, combine) ∈ reqs
       /\ first_missing fs self split (PyDict.keys (Task.langs2id self)) = None
       /\ merged =
          MultiCorpusSampledDataset.mk
            (dataset_map_for self split (PyDict.keys (Task.langs2id self))
               PyDict.empty)
            (Task.default_key
               (after_first_key self (PyDict.keys (Task.langs2id self)))).
Proof.
  induction reqs as [|[[fs0 split0] combine0] reqs IH]; intros d; [by left|].
  change (registry_after_all self ((fs0, split0, combine0) :: reqs) d)
    with (registry_after_all self reqs (registry_after fs0 self split0 d)).
  intros [Hd|(fs & c & Hin & Hok & Hm)]%IH.
  - rewrite registry_after_lookup in Hd. case_decide as Hdec; [|by left].
    destruct Hdec as [-> Hok]. injection Hd as <-.
    right. exists fs0, combine0. split; [by left|]. by split.
  - right. exists fs, c. split; [by right|]. by split.
Qed.

Lemma run_loads_registry self reqs :
  Task.datasets (run_loads self reqs) =
  registry_after_all self reqs (Task.datasets self).
Proof.
  destruct reqs as [|[[fs split] combine] reqs]; [done|].
  by rewrite run_loads_cons, load_dataset_final, run_loads_later.
Qed.

(** X18. The merged dataset that a series of loads leaves under a split is
    the one that was there before or the one a single load of that split
    registers on the task as it was at the start: loads of other splits,
    failed loads and earlier loads of the same split have no part in it. *)
Theorem registered_entry_is_history_free
    (self : Task.t) (reqs : list Request) (split : string)
    (merged : MultiCorpusSampledDataset.t) :
  Task.datasets (run_loads self reqs) !! split = Some merged ->
  Task.datasets self !! split = Some merged
  \/ exists fs combine,
       (fs, split, combine) ∈ reqs
       /\ outcome (load_dataset fs split combine self) = inr tt
       /\ Task.datasets (final (load_dataset fs split combine self)) !! split
          = Some merged.
Proof.
  rewrite run_loads_registry.
  intros [Hd|(fs & c & Hin & Hok & ->)]%registry_after_all_lookup; [by left|].
  right. exists fs, c. split; [exact Hin|].
  split; [by apply outcome_ok_iff|].
  rewrite load_dataset_final. cbn [Task.datasets Task.set_datasets].
  by rewrite registry_after_lookup, decide_True.
Qed.

Lemma registered_entry_is_history_free_witness :
  let self := __init__ sample_args sample_dictionary in
  let reqs := [(sample_fs, "valid", false); (sample_fs, "train", true)] in
  exists merged,
    Task.datasets (run_loads self reqs) !! "train" = Some merged
    /\ (Task.datasets self !! "train" = Some merged
        \/ exists fs combine,
             (fs, "train", combine) ∈ reqs
             /\ outcome (load_dataset fs "train" combine self) = inr tt
             /\ Task.datasets (final (load_dataset fs "train" combine self))
                  !! "train" = Some merged).
Proof.
  intros self reqs.
  destruct (Task.datasets (run_loads self reqs) !! "train") as [merged|] eqn:Hm.
  2:{ vm_compute in Hm. discriminate. }
  exists merged. split; [reflexivity|].
  exact (registered_entry_is_history_free self reqs "train" merged Hm).
Defined.

(** ** Setting the task up *)

(** X19. [setup_task] reads the dictionary from [dict.txt] in the data
    directory. When the loader raises, the error is passed on and nothing
    is printed; otherwise one line with the dictionary's size is printed
    and the task returned has an empty registry, no default key, and the
    loaded dictionary as its target dictionary, which it keeps through
    any series of loads and hands to every dataset it registers. *)
Theorem setup_task_dictionary
    (E : Type) (load : string -> E + MaskedLMDictionary.t)
    (len : MaskedLMDictionary.t -> nat) (args : Args.t)
    (reqs : list Request) :
  match setup_task E load len args with
  | (inl e, out) =>
      load (os_path_join (Args.data args) "dict.txt") = inl e /\ out = []
  | (inr task, out) =>
      exists dictionary,
        load (os_path_join (Args.data args) "dict.txt") = inr dictionary
        /\ out = [PrintDictionary (len dictionary)]
        /\ Task.datasets task = ∅
        /\ Task.default_key task = None
        /\ Task.langs2id task = _lang_to_id (Args.monolingual_langs args)
        /\ target_dictionary (run_loads task reqs) = dictionary
        /\ forall split merged lang mlm,
             Task.datasets (run_loads task reqs) !! split = Some merged ->
             PyDict.get (MultiCorpusSampledDataset.datasets merged) lang
             = Some mlm ->
             MaskedLMDataset.vocab mlm = dictionary
  end.
Proof.
  unfold setup_task.
  destruct (load (os_path_join (Args.data args) "dict.txt"))
    as [e|dictionary] eqn:Hload; [done|].
  exists dictionary. split_and!; try reflexivity.
  - unfold target_dictionary.
    destruct reqs as [|[[fs split] combine] reqs]; [done|].
    rewrite run_loads_cons, load_dataset_final, run_loads_later.
    cbn [Task.dictionary Task.set_datasets].
    apply after_first_key_frame.
  - intros split merged lang mlm. rewrite run_loads_registry.
    intros [Hd|(fs & c & _ & _ & ->)]%registry_after_all_lookup.
    + unfold __init__, FairseqTask__init__ in Hd. simpl in Hd.
      by rewrite lookup_empty in Hd.
    + cbn [MultiCorpusSampledDataset.datasets].
      rewrite dataset_map_for_get. case_decide; [|discriminate].
      by intros [= <-].
Qed.

(** ** Language strings and their entries *)

Section EntryFacts.
Implicit Types (s r t pre post : string) (c : ascii) (e : LangEntry.t).

Lemma chars_app s t :
  list_ascii_of_string (s +:+ t) =
  list_ascii_of_string s ++ list_ascii_of_string t.
Proof.
  induction s as [|c s IH]; [reflexivity|].
  change (String c s +:+ t) with (String c (s +:+ t)). simpl. by rewrite IH.
Qed.

Lemma all_space_no_comma s :
  LangEntry.all_space s = true -> ","%char ∉ list_ascii_of_string s.
Proof.
  induction s as [|c s IH]; simpl; [intros _; apply not_elem_of_nil|].
  intros [Hc Hs]%andb_true_iff. apply not_elem_of_cons. split; [|by apply IH].
  intros <-. discriminate.
Qed.

Lemma no_comma_chars s :
  LangEntry.no_comma s = true <-> ","%char ∉ list_ascii_of_string s.
Proof.
  induction s as [|c s IH]; simpl.
  - split; [intros _; apply not_elem_of_nil | done].
  - rewrite andb_true_iff, bool_decide_eq_true, IH, not_elem_of_cons.
    split; intros [? ?]; split; congruence.
Qed.

Lemma text_no_comma e :
  LangEntry.ok e = true -> ","%char ∉ list_ascii_of_string (LangEntry.text e).
Proof.
  unfold LangEntry.ok, LangEntry.text.
  intros [[[Hb Ha]%andb_true_iff _]%andb_true_iff Hc]%andb_true_iff.
  rewrite !chars_app, !not_elem_of_app.
  split_and!; [by apply all_space_no_comma | by apply no_comma_chars
              | by apply all_space_no_comma].
Qed.

Lemma lstrip_all_space s : LangEntry.all_space s = true -> PyStr.lstrip s = "".
Proof.
  induction s as [|c s IH]; simpl; [done|].
  intros [-> Hs]%andb_true_iff. by apply IH.
Qed.

Lemma lstrip_app_space pre t :
  LangEntry.all_space pre = true -> PyStr.lstrip (pre +:+ t) = PyStr.lstrip t.
Proof.
  induction pre as [|c pre IH]; [done|]. simpl.
  intros [Hc Hs]%andb_true_iff.
  change (String c pre +:+ t) with (String c (pre +:+ t)). simpl.
  rewrite Hc. by apply IH.
Qed.

Lemma rstrip_all_space s : LangEntry.all_space s = true -> PyStr.rstrip s = "".
Proof.
  induction s as [|c s IH]; simpl; [done|].
  intros [-> Hs]%andb_true_iff. by rewrite IH.
Qed.

Lemma rstrip_app_space s post :
  LangEntry.all_space post = true ->
  PyStr.rstrip (s +:+ post) = PyStr.rstrip s.
Proof.
  intros Hpost. induction s as [|c s IH].
  - change ("" +:+ post) with post. by rewrite rstrip_all_space.
  - change (String c s +:+ post) with (String c (s +:+ post)). simpl.
    by rewrite IH.
Qed.

Lemma rstrip_last_kept s b :
  LangEntry.last_char s = Some b -> PyStr.isspace b = false ->
  PyStr.rstrip s = s.
Proof.
  induction s as [|c s IH]; [done|].
  destruct s as [|c' s].
  - simpl. intros [= ->] ->. reflexivity.
  - intros Hlast Hb.
    change (PyStr.rstrip (String c (String c' s)))
      with (match PyStr.rstrip (String c' s) with
            | EmptyString =>
                if PyStr.isspace c then EmptyString else String c EmptyString
            | r0 => String c r0
            end).
    by rewrite (IH Hlast Hb).
Qed.

Lemma rstrip_last_char s b :
  LangEntry.last_char (PyStr.rstrip s) = Some b -> PyStr.isspace b = false.
Proof.
  induction s as [|c s IH]; simpl; [done|].
  destruct (PyStr.rstrip s) as [|c' r] eqn:Hr.
  - destruct (PyStr.isspace c) eqn:Hc; simpl; [done|]. by intros [= <-].
  - exact IH.
Qed.

(** Stripping an entry leaves its code. *)
Lemma strip_text e :
  LangEntry.ok e = true -> PyStr.strip (LangEntry.text e) = LangEntry.code e.
Proof.
  destruct e as [pre code post]. unfold LangEntry.ok, LangEntry.text.
  cbn [LangEntry.before LangEntry.code LangEntry.after].
  intros [[[Hpre Hpost]%andb_true_iff Htrim]%andb_true_iff _]%andb_true_iff.
  unfold PyStr.strip. rewrite lstrip_app_space by exact Hpre.
  destruct code as [|c code].
  - change ("" +:+ post) with post. by rewrite lstrip_all_space.
  - unfold LangEntry.trimmed in Htrim. cbn [LangEntry.first_char] in Htrim.
    destruct (LangEntry.last_char (String c code)) as [b|] eqn:Hlast.
    2:{ exfalso. clear -Hlast. revert c Hlast.
        induction code as [|c' code IH]; intros c; [done|]. apply IH. }
    apply andb_true_iff in Htrim as [Hc%negb_true_iff Hb%negb_true_iff].
    change (String c code +:+ post) with (String c (code +:+ post)).
    cbn [PyStr.lstrip]. rewrite Hc.
    change (String c (code +:+ post)) with (String c code +:+ post).
    rewrite rstrip_app_space by exact Hpost.
    by apply (rstrip_last_kept _ b).
Qed.

(** What [split_langs] returns for a language string made of entries. *)
Lemma split_langs_join (entries : list LangEntry.t) :
  entries ≠ [] -> forallb LangEntry.ok entries = true ->
  split_langs (join_entries entries) = map LangEntry.code entries.
Proof.
  intros Hne Hok. unfold split_langs, join_entries.
  assert (forall e, e ∈ entries -> LangEntry.ok e = true) as Hall.
  { intros e He. apply list_elem_of_In in He.
    by apply (proj1 (forallb_forall _ _) Hok). }
  rewrite split_concat.
  - rewrite map_map. apply map_ext_in. intros e He.
    apply strip_text, Hall. by apply list_elem_of_In.
  - by destruct entries.
  - intros r (e & -> & He)%list_elem_of_fmap. by apply text_no_comma, Hall.
Qed.

Lemma concat_split (sep : ascii) s :
  String.concat (String sep "") (PyStr.split sep s) = s.
Proof.
  induction s as [|c s IH]; [reflexivity|]. simpl.
  destruct (PyStr.split sep s) as [|w ws] eqn:Hsplit;
    [by apply split_nonempty in Hsplit|].
  destruct (decide (c = sep)) as [->|Hne].
  - change (String.concat (String sep "") ("" :: w :: ws))
      with (String sep (String.concat (String sep "") (w :: ws))).
    by rewrite IH.
  - destruct ws as [|w' ws].
    + simpl in IH |- *. by rewrite IH.
    + change (String.concat (String sep "") (String c w :: w' :: ws))
        with (String c (String.concat (String sep "") (w :: w' :: ws))).
      by rewrite IH.
Qed.

Lemma lstrip_decompose r :
  exists pre, LangEntry.all_space pre = true /\ r = pre +:+ PyStr.lstrip r.
Proof.
  induction r as [|c r (pre & Hpre & Hr)]; [by exists ""|]. simpl.
  destruct (PyStr.isspace c) eqn:Hc.
  - exists (String c pre). split; [simpl; by rewrite Hc|].
    change (String c pre +:+ PyStr.lstrip r)
      with (String c (pre +:+ PyStr.lstrip r)).
    by rewrite <- Hr.
  - by exists "".
Qed.

Lemma rstrip_decompose t :
  exists post, LangEntry.all_space post = true /\ t = PyStr.rstrip t +:+ post.
Proof.
  induction t as [|c t (post & Hpost & Ht)]; [by exists ""|]. simpl.
  destruct (PyStr.rstrip t) as [|c' r] eqn:Hr.
  - change ("" +:+ post) with post in Ht. subst post.
    destruct (PyStr.isspace c) eqn:Hc.
    + exists (String c t). split; [simpl; by rewrite Hc|done].
    + by exists t.
  - exists post. split; [exact Hpost|].
    change (String c (String c' r) +:+ post)
      with (String c (String c' r +:+ post)).
    by rewrite <- Ht.
Qed.

Lemma strip_trimmed r : LangEntry.trimmed (PyStr.strip r) = true.
Proof.
  unfold LangEntry.trimmed.
  destruct (PyStr.strip r) as [|c s] eqn:Hs; [done|].
  cbn [LangEntry.first_char].
  destruct (LangEntry.last_char (String c s)) as [b|] eqn:Hlast; [|done].
  apply andb_true_iff. split; apply negb_true_iff.
  - apply (lstrip_fixed_head c s). rewrite <- Hs. apply strip_lstrip.
  - apply (rstrip_last_char (PyStr.lstrip r)). fold (PyStr.strip r).
    by rewrite Hs.
Qed.

(** Every comma-free field is an entry, whose code is the stripped field. *)
Lemma entry_of_field r :
  ","%char ∉ list_ascii_of_string r ->
  exists e, LangEntry.ok e = true /\ LangEntry.text e = r.
Proof.
  intros Hr.
  destruct (lstrip_decompose r) as (pre & Hpre & Hr1).
  destruct (rstrip_decompose (PyStr.lstrip r)) as (post & Hpost & Hr2).
  exists (LangEntry.mk pre (PyStr.strip r) post). split.
  - unfold LangEntry.ok.
    cbn [LangEntry.before LangEntry.code LangEntry.after].
    rewrite Hpre, Hpost, strip_trimmed. simpl.
    apply no_comma_chars. intros Hc. by apply strip_chars in Hc.
  - unfold LangEntry.text.
    cbn [LangEntry.before LangEntry.code LangEntry.after].
    unfold PyStr.strip. by rewrite <- Hr2, <- Hr1.
Qed.

Lemma entries_of_fields (raws : list string) :
  (forall r, r ∈ raws -> ","%char ∉ list_ascii_of_string r) ->
  exists entries,
    forallb LangEntry.ok entries = true /\ map LangEntry.text entries = raws.
Proof.
  induction raws as [|r raws IH]; intros Hraws; [by exists []|].
  destruct IH as (entries & Hok & Htext).
  { intros r' Hr'. apply Hraws. by right. }
  destruct (entry_of_field r) as (e & He & Hr); [apply Hraws; by left|].
  exists (e :: entries).
  split; simpl; [by rewrite He, Hok | by rewrite Hr, Htext].
Qed.

(** Every string is a language string: commas separate its entries. *)
Lemma language_string_entries (languages : string) :
  exists entries,
    entries ≠ []
    /\ forallb LangEntry.ok entries = true
    /\ languages = join_entries entries.
Proof.
  destruct (entries_of_fields (PyStr.split "," languages))
    as (entries & Hok & Htext).
  { intros r Hr. by eapply split_fields_no_sep. }
  exists entries. split_and!.
  - intros ->. symmetry in Htext. by apply split_nonempty in Htext.
  - exact Hok.
  - unfold join_entries. rewrite Htext. symmetry. apply concat_split.
Qed.
End EntryFacts.

(** C1. Every string is a non-empty sequence of entries separated by
    commas, each a language code with white space around it. Whenever the
    codes of such a string are pairwise distinct, the mapping built from
    it lists the codes, without the white space, in their order in the
    string with the ids [0, 1, ..., n-1]: the code of the [i]-th entry is
    the [i]-th key and is mapped to [i]. *)
Theorem lang_to_id_distinct :
  (forall languages : string,
     exists entries,
       entries ≠ []
       /\ forallb LangEntry.ok entries = true
       /\ languages = join_entries entries)
  /\ (forall entries : list LangEntry.t,
        entries ≠ [] ->
        forallb LangEntry.ok entries = true ->
        NoDup (map LangEntry.code entries) ->
        _lang_to_id (join_entries entries) =
          zip (map LangEntry.code entries) (seq 0 (length entries))
        /\ forall i e, entries !! i = Some e ->
             PyDict.get (_lang_to_id (join_entries entries)) (LangEntry.code e)
             = Some i).
Proof.
  split; [exact language_string_entries|].
  intros entries Hne Hok Hnd.
  pose proof (split_langs_join entries Hne Hok) as Hsplit.
  destruct (lang_to_id_distinct_fields (join_entries entries)) as [Hmap Hget].
  { by rewrite Hsplit. }
  split.
  - by rewrite Hmap, Hsplit, length_map.
  - intros i e Hi. apply Hget. by rewrite Hsplit, list_lookup_fmap, Hi.
Qed.

Lemma lang_to_id_distinct_witness :
  let entries := [LangEntry.mk "" "en" " "; LangEntry.mk "  " "fr" "";
                  LangEntry.mk "" "de" " "] in
  join_entries entries = "en ,  fr,de "
  /\ entries ≠ []
  /\ forallb LangEntry.ok entries = true
  /\ NoDup (map LangEntry.code entries)
  /\ _lang_to_id "en ,  fr,de " = [("en", 0); ("fr", 1); ("de", 2)].
Proof.
  intros entries.
  assert (entries ≠ []) as Hne by discriminate.
  assert (forallb LangEntry.ok entries = true) as Hok by reflexivity.
  assert (NoDup (map LangEntry.code entries)) as Hnd.
  { apply (bool_decide_unpack _). vm_compute. exact I. }
  split; [reflexivity|]. split; [exact Hne|]. split; [exact Hok|].
  split; [exact Hnd|].
  exact (proj1 (proj2 lang_to_id_distinct entries Hne Hok Hnd)).
Defined.

(** C8. Every string is a non-empty sequence of entries separated by
    commas, each a language code with white space around it. Whatever the
    entries, the mapping built from the string has exactly one key per
    distinct code, entries whose codes are equal once the white space is
    removed sharing one key, and a code is mapped to the position of the
    last entry that carries it. *)
Theorem lang_to_id_last_occurrence :
  (forall languages : string,
     exists entries,
       entries ≠ []
       /\ forallb LangEntry.ok entries = true
       /\ languages = join_entries entries)
  /\ (forall entries : list LangEntry.t,
        entries ≠ [] ->
        forallb LangEntry.ok entries = true ->
        let codes := map LangEntry.code entries in
        let lang2id := _lang_to_id (join_entries entries) in
        NoDup (PyDict.keys lang2id)
        /\ (forall lang, lang ∈ PyDict.keys lang2id <-> lang ∈ codes)
        /\ PyDict.keys lang2id ≡ₚ remove_dups codes
        /\ (forall lang id,
              PyDict.get lang2id lang = Some id <->
              codes !! id = Some lang
              /\ forall j, id < j -> codes !! j ≠ Some lang)).
Proof.
  split; [exact language_string_entries|].
  intros entries Hne Hok codes lang2id. subst codes lang2id.
  rewrite <- (split_langs_join entries Hne Hok).
  apply lang_to_id_fields_last_occurrence.
Qed.

Lemma lang_to_id_last_occurrence_witness :
  let entries := [LangEntry.mk "" "fr" " "; LangEntry.mk "" "en" "";
                  LangEntry.mk " " "fr" ""] in
  join_entries entries = "fr ,en, fr"
  /\ entries ≠ []
  /\ forallb LangEntry.ok entries = true
  /\ PyDict.keys (_lang_to_id "fr ,en, fr") ≡ₚ ["en"; "fr"]
  /\ PyDict.get (_lang_to_id "fr ,en, fr") "fr" = Some 2
  /\ PyDict.get (_lang_to_id "fr ,en, fr") "en" = Some 1.
Proof.
  intros entries.
  assert (entries ≠ []) as Hne by discriminate.
  assert (forallb LangEntry.ok entries = true) as Hok by reflexivity.
  split; [reflexivity|]. split; [exact Hne|]. split; [exact Hok|].
  destruct (proj2 lang_to_id_last_occurrence entries Hne Hok)
    as (_ & _ & Hperm & Hget).
  split; [exact Hperm|]. split.
  - apply (proj2 (Hget "fr" 2)). split; [reflexivity|].
    intros j Hj. rewrite lookup_ge_None_2; [discriminate | simpl; lia].
  - apply (proj2 (Hget "en" 1)). split; [reflexivity|].
    intros [|[|[|j]]] Hj; try lia; discriminate.
Defined.

(** On the string ["fr ,en, fr "] the last entry [fr] holds the id 2 and
    there are two keys for three entries. *)
Lemma lang_to_id_last_entry_witness :
  PyDict.get (_lang_to_id "fr ,en, fr ") "fr" = Some 2
  /\ length (_lang_to_id "fr ,en, fr ") < 3.
Proof.
  destruct (lang_to_id_last_entry "fr ,en, fr ")
    as ((lang & Hlast & Hget) & _ & Hlt).
  assert (lang = "fr") as -> by (vm_compute in Hlast; congruence).
  split; [exact Hget|].
  apply Hlt. apply (bool_decide_unpack _). vm_compute. exact I.
Defined.

(** On the string ["fr ,en, fr "] the keys are [fr] then [en]. *)
Lemma lang_to_id_keys_order_witness :
  PyDict.keys (_lang_to_id "fr ,en, fr ") = ["fr"; "en"].
Proof.
  rewrite (lang_to_id_keys_order "fr ,en, fr "). vm_compute. reflexivity.
Defined.
